(** * Mobb false-positive extractor: a shallow embedding of
      [mobb_fp_extractor.py] and the properties of its extraction pipeline.

    The extractor lists the active fix reports of a tenant, keeps those created
    inside a look-back window, fetches each report's details and issues, keeps
    the issues that carry a non-empty tag and appends one CSV row per kept
    issue.

    Every value the program handles comes out of [json.load] or
    [response.json()], so a single type of JSON-shaped Python values is the
    data model; dictionaries are finite maps with string keys.  Python's
    exceptions are an error type, and the methods of the extractor are
    computations over an explicit state that may raise.  What the program does
    not own is a parameter: the responses of the API (a function of the
    request), the clock, [datetime.fromisoformat] and the fate of each write
    to the output file.  Of the log only the warning and error lines are
    kept. *)

From stdpp Require Import gmap strings list.
From Stdlib Require Import Ascii ZArith Lia.

(** ** Python values *)

(** What [json.load] builds: [None], booleans, integers, strings, lists and
    dictionaries.  Numbers are kept integral. *)
#[warnings="-register-all"]
Inductive json : Type :=
  | JNull
  | JBool (b : bool)
  | JNum (n : Z)
  | JStr (s : string)
  | JArr (l : list json)
  | JObj (d : gmap string json).

(** The exception classes the program can meet.  All of them derive from
    [Exception], so a bare [except Exception] catches each one. *)
Inductive exn : Type :=
  | AttributeError
  | TypeError
  | KeyError
  | IndexError
  | ValueError (msg : string)
  | OverflowError
  | FileNotFoundError
  | OSError
  | SystemError.

(** A computation that either returns or raises. *)
Inductive result (A : Type) : Type :=
  | Ok (a : A)
  | Raise (e : exn).
Arguments Ok {A} a.
Arguments Raise {A} e.

Definition rbind {A B : Type} (m : result A) (k : A -> result B) : result B :=
  match m with
  | Ok a => k a
  | Raise e => Raise e
  end.

Notation "'let!' x ':=' m 'in' k" := (rbind m (fun x => k))
  (at level 10, x name, m at level 100, k at level 200).

(** Python truth value: [None], [False], [0], the empty string, the empty list
    and the empty dictionary are false, everything else is true. *)
Definition truthy (v : json) : bool :=
  match v with
  | JNull => false
  | JBool b => b
  | JNum n => negb (n =? 0)%Z
  | JStr s => negb (String.eqb s EmptyString)
  | JArr l => match l with [] => false | _ :: _ => true end
  | JObj d => negb (bool_decide (d = ∅))
  end.

(** [v.get(key, default)]: only dictionaries have the method. *)
Definition py_get (v : json) (key : string) (dflt : json) : result json :=
  match v with
  | JObj d => Ok (default dflt (d !! key))
  | _ => Raise AttributeError
  end.

Definition chars (s : string) : list json :=
  (fun c => JStr (String c EmptyString)) <$> String.list_ascii_of_string s.

(** [for x in v]: a list yields its elements, a string its characters, a
    dictionary its keys; nothing else is iterable. *)
Definition py_iter (v : json) : result (list json) :=
  match v with
  | JArr l => Ok l
  | JStr s => Ok (chars s)
  | JObj d => Ok (JStr <$> (map_to_list d).*1)
  | _ => Raise TypeError
  end.

(** [len(v)]. *)
Definition py_len (v : json) : result nat :=
  match v with
  | JArr l => Ok (length l)
  | JStr s => Ok (String.length s)
  | JObj d => Ok (size d)
  | _ => Raise TypeError
  end.

(** [v[0]]: first element of a list, first character of a string; a
    dictionary from JSON has string keys only, so the key [0] is never there. *)
Definition py_first (v : json) : result json :=
  match v with
  | JArr (x :: _) => Ok x
  | JArr [] => Raise IndexError
  | JStr (String c _) => Ok (JStr (String c EmptyString))
  | JStr EmptyString => Raise IndexError
  | JObj _ => Raise KeyError
  | _ => Raise TypeError
  end.

(** [sep.join(xs)] of plain strings. *)
Fixpoint join (sep : string) (xs : list string) : string :=
  match xs with
  | [] => EmptyString
  | [x] => x
  | x :: rest => x +:+ sep +:+ join sep rest
  end.

(** [sep.join(values)]: a [TypeError] as soon as one item is not a string. *)
Fixpoint strings_of (values : list json) : result (list string) :=
  match values with
  | [] => Ok []
  | JStr s :: rest => let! ss := strings_of rest in Ok (s :: ss)
  | _ :: _ => Raise TypeError
  end.

Definition py_join (sep : string) (values : list json) : result string :=
  let! ss := strings_of values in Ok (join sep ss).

(** ** The relevance filter *)

(** The filter writes into the issue dictionaries it is handed.  The issues
    live in a store of objects; a Python list of issues is a list of
    references into it, so the same dictionary may be referenced twice. *)
Abbreviation loc := nat (only parsing).
Abbreviation heap := (list json) (only parsing).

Definition TAGS : string := "vulnerabilityReportIssueTags".
Definition TAG_VALUE : string := "vulnerability_report_issue_tag_value".
Definition CONCATENATED_TAGS : string := "concatenated_tags".
Definition SEPARATOR : string := " | ".

(** The inner loop: [for tag in tags], appending the true tag values. *)
Fixpoint collect_tag_values (tags : list json) (tag_values : list json)
  : result (list json) :=
  match tags with
  | [] => Ok tag_values
  | tag :: rest =>
      let! tag_value := py_get tag TAG_VALUE JNull in
      collect_tag_values rest
        (if truthy tag_value then tag_values ++ [tag_value] else tag_values)
  end.

(** The body of the outer loop up to the assignment: [Ok None] when the issue
    is passed over, [Ok (Some s)] when it is kept with the joined string [s]. *)
Definition concatenated_tags (issue : json) : result (option string) :=
  let! tags := py_get issue TAGS (JArr []) in
  if truthy tags then
    let! elems := py_iter tags in
    let! tag_values := collect_tag_values elems [] in
    match tag_values with
    | [] => Ok None
    | _ :: _ => let! s := py_join SEPARATOR tag_values in Ok (Some s)
    end
  else Ok None.

(** [issue[key] = v]. *)
Definition set_item (issue : json) (key : string) (v : json) : json :=
  match issue with
  | JObj d => JObj (<[key := v]> d)
  | _ => issue
  end.

(** [for issue in issues], with the store and the list under construction.  A
    reference outside the store has no Python counterpart; the run stops. *)
Fixpoint filter_loop (issues : list loc) (h : heap) (irrelevant_issues : list loc)
  : heap * result (list loc) :=
  match issues with
  | [] => (h, Ok irrelevant_issues)
  | l :: rest =>
      match h !! l with
      | None => (h, Raise SystemError)
      | Some issue =>
          match concatenated_tags issue with
          | Raise e => (h, Raise e)
          | Ok None => filter_loop rest h irrelevant_issues
          | Ok (Some s) =>
              filter_loop rest
                (<[l := set_item issue CONCATENATED_TAGS (JStr s)]> h)
                (irrelevant_issues ++ [l])
          end
      end
  end.

Definition filter_irrelevant_issues (h : heap) (issues : list loc)
  : heap * result (list loc) :=
  filter_loop issues h [].

(** *** The filter as the specification words it *)

(** The value a tag carries ([None] when the key is absent). *)
Definition tag_value_of (tag : json) : json :=
  match tag with
  | JObj d => default JNull (d !! TAG_VALUE)
  | _ => JNull
  end.

(** The text of a tag whose value is a non-empty string. *)
Definition tag_text (tag : json) : option string :=
  match tag_value_of tag with
  | JStr s => if truthy (JStr s) then Some s else None
  | _ => None
  end.

(** The tag sequence of an issue (empty when absent or [None]). *)
Definition issue_tags (issue : json) : list json :=
  match issue with
  | JObj d => match d !! TAGS with Some (JArr tags) => tags | _ => [] end
  | _ => []
  end.

(** The non-empty tag values of an issue, in their original order. *)
Definition nonempty_tag_values (issue : json) : list string :=
  omap tag_text (issue_tags issue).

(** An issue is relevant when at least one of its tags has a non-empty value. *)
Definition relevant (issue : json) : bool :=
  existsb (fun tag => bool_decide (is_Some (tag_text tag))) (issue_tags issue).

(** The shape of an issue in the data model: a dictionary whose tag list, when
    present, is a list of dictionaries whose values are strings or [None]. *)
Definition tag_typed (tag : json) : bool :=
  match tag with
  | JObj d =>
      match d !! TAG_VALUE with
      | None | Some JNull | Some (JStr _) => true
      | Some _ => false
      end
  | _ => false
  end.

Definition issue_typed (issue : json) : bool :=
  match issue with
  | JObj d =>
      match d !! TAGS with
      | None | Some JNull => true
      | Some (JArr tags) => forallb tag_typed tags
      | Some _ => false
      end
  | _ => false
  end.

Definition at_loc (P : json -> bool) (h : heap) (l : loc) : bool :=
  match h !! l with
  | Some issue => P issue
  | None => false
  end.

(** What the store holds at a kept issue once the filter is done with it. *)
Definition attach (issue : json) : json :=
  match concatenated_tags issue with
  | Ok (Some s) => set_item issue CONCATENATED_TAGS (JStr s)
  | _ => issue
  end.

Definition keeps (h : heap) (l : loc) : bool :=
  at_loc (fun issue => match concatenated_tags issue with
                       | Ok (Some _) => true
                       | _ => false
                       end) h l.

(** A store that differs from [h0] only by joined strings already attached. *)
Definition stamped (h0 h : heap) : Prop :=
  forall l : loc, h !! l = h0 !! l \/ h !! l = attach <$> h0 !! l.

(** ** Worked issues *)

(** A store of three issue dictionaries used in the worked examples: the
    first carries two non-empty tag values among four tags, the second has an
    empty tag list, the third a single tag. *)
Definition demo_issue_a : json :=
  JObj (<[TAGS := JArr [JObj {[TAG_VALUE := JStr "fp-confirmed"]};
                        JObj {[TAG_VALUE := JStr EmptyString]};
                        JObj ∅;
                        JObj {[TAG_VALUE := JStr "wont-fix"]}]]>
        {["vendorInstanceId" := JStr "v-1"]}).

Definition demo_issue_b : json :=
  JObj (<[TAGS := JArr []]> {["vendorInstanceId" := JStr "v-2"]}).

Definition demo_issue_c : json :=
  JObj {[TAGS := JArr [JObj {[TAG_VALUE := JStr "noise"]}]]}.

Definition demo_store : list json := [demo_issue_a; demo_issue_b; demo_issue_c].


(** The same store once the filter has been through all of it. *)
Definition demo_store_filtered : list json :=
  [set_item demo_issue_a CONCATENATED_TAGS (JStr "fp-confirmed | wont-fix");
   demo_issue_b;
   set_item demo_issue_c CONCATENATED_TAGS (JStr "noise")].

(** ** Dates *)

(** A [datetime]: the reading of its own clock face in microseconds since
    1970-01-01T00:00:00, and its UTC offset in microseconds when it is aware
    ([None] for a naive one). *)
Record datetime : Type := Datetime {
  wall : Z;
  utcoffset : option Z
}.

Definition MICROSECONDS_PER_DAY : Z := 86400000000.
(** [datetime.min] and [datetime.max] on that scale. *)
Definition MIN_WALL : Z := -62135596800000000.
Definition MAX_WALL : Z := 253402300799999999.
(** The largest number of days a [timedelta] holds. *)
Definition MAX_DELTA_DAYS : Z := 999999999.

(** [timedelta(days=v)], in microseconds: integers (and booleans, which are
    integers) are accepted up to the bound. *)
Definition timedelta_days (v : json) : result Z :=
  match v with
  | JNum n =>
      if (Z.abs n <=? MAX_DELTA_DAYS)%Z then Ok (n * MICROSECONDS_PER_DAY)%Z
      else Raise OverflowError
  | JBool b => Ok (if b then MICROSECONDS_PER_DAY else 0%Z)
  | _ => Raise TypeError
  end.

(** [dt - delta]: the zone is kept, the result must be a representable date. *)
Definition datetime_sub (dt : datetime) (delta : Z) : result datetime :=
  let w := (wall dt - delta)%Z in
  if ((MIN_WALL <=? w) && (w <=? MAX_WALL))%Z
  then Ok (Datetime w (utcoffset dt))
  else Raise OverflowError.

(** [a >= b]: two aware datetimes compare as instants, two naive ones as wall
    readings, and mixing them is a [TypeError]. *)
Definition datetime_ge (a b : datetime) : result bool :=
  match utcoffset a, utcoffset b with
  | Some oa, Some ob => Ok (wall b - ob <=? wall a - oa)%Z
  | None, None => Ok (wall b <=? wall a)%Z
  | _, _ => Raise TypeError
  end.

(** [s.replace('Z', '+00:00')]. *)
Fixpoint replace_Z (s : string) : string :=
  match s with
  | EmptyString => EmptyString
  | String c rest =>
      if Ascii.eqb c "Z"%char then "+00:00" +:+ replace_Z rest
      else String c (replace_Z rest)
  end.

(** ** The extractor and its surroundings *)

(** The three GET endpoints, by the report identifier they are built from. *)
Inductive endpoint : Type :=
  | ActiveReports
  | FixReport (fix_report_id : json)
  | Issues (fix_report_id : json).

(** How one [_append_to_csv] ends: the row is in the file; opening or writing
    raised and the row is not; or the row is in the file and the confirmation
    print that follows it inside the same [try] raised. *)
Inductive append_outcome : Type :=
  | Written
  | NotWritten (e : exn)
  | WrittenThenRaised (e : exn).

(** What lies outside the program.  [api] is the body a GET of an endpoint
    yields during the run ([None] for a timeout, a transport or HTTP error or a
    body that is not JSON); [utcnow] the k-th reading of the UTC clock;
    [fromisoformat] is [datetime.fromisoformat] ([None] when it raises);
    [csv_append] says how the k-th append ends and [csv_create] whether
    creating the output file raises. *)
Record env : Type := Env {
  api : endpoint -> option json;
  utcnow : nat -> Z;
  fromisoformat : string -> option datetime;
  csv_append : nat -> json -> append_outcome;
  csv_create : option exn
}.

(** The attributes of a constructed [MobbFPExtractor]. *)
Record extractor : Type := Extractor {
  api_token : json;
  tenant : json;
  days_of_data : json
}.

(** The warning and error lines of the log. *)
Inductive log_record : Type :=
  | RequestFailed (ep : endpoint)
  | ActiveReportsFailed
  | DateParseFailed (report_id : json) (e : exn)
  | DetailsFailed (fix_report_id : json)
  | NoFixReportData (fix_report_id : json)
  | IssuesFailed (fix_report_id : json)
  | NoActiveReports
  | ProcessingFailed (report_id : json) (e : exn)
  | CsvInitFailed (e : exn)
  | CsvAppendFailed (e : exn)
  | FatalError (e : exn).

(** What a run changes: the log, the data rows of the output file, the GET
    requests sent, how often the clock was read and how many appends were
    tried; and the counter local to [process_all_reports], kept here so that
    it survives the exception handler of the loop as it does in Python. *)
Record state : Type := State {
  log : list log_record;
  csv : list json;
  requests : list endpoint;
  clock_reads : nat;
  appends : nat;
  total_irrelevant_issues : nat
}.

Definition initial_state : state := State [] [] [] 0 0 0.

(** Stateful computations that may raise; the state reached is kept when one
    raises. *)
Definition M (A : Type) : Type := state -> state * result A.

Definition ret {A : Type} (a : A) : M A := fun w => (w, Ok a).

Definition raise {A : Type} (e : exn) : M A := fun w => (w, Raise e).

Definition bind {A B : Type} (m : M A) (k : A -> M B) : M B :=
  fun w =>
    match m w with
    | (w', Ok a) => k a w'
    | (w', Raise e) => (w', Raise e)
    end.

Definition lift {A : Type} (r : result A) : M A := fun w => (w, r).

(** [try: body except Exception as e: handler]. *)
Definition try_except {A : Type} (body : M A) (handler : exn -> M A) : M A :=
  fun w =>
    match body w with
    | (w', Ok a) => (w', Ok a)
    | (w', Raise e) => handler e w'
    end.

Notation "'let*' x ':=' m 'in' k" := (bind m (fun x => k))
  (at level 10, x name, m at level 100, k at level 200).

Definition logging (r : log_record) : M unit :=
  fun w => (State (log w ++ [r]) (csv w) (requests w) (clock_reads w)
              (appends w) (total_irrelevant_issues w), Ok tt).

#[global] Instance json_inhabited : Inhabited json := populate JNull.

Section Extractor.

Variable E : env.
Variable self : extractor.

(** [_make_request]: every failure is logged and turned into [None]. *)
Definition _make_request (ep : endpoint) : M json :=
  fun w =>
    let w' := State (log w ++ match api E ep with
                              | Some _ => []
                              | None => [RequestFailed ep]
                              end)
                (csv w) (requests w ++ [ep]) (clock_reads w)
                (appends w) (total_irrelevant_issues w) in
    (w', Ok (default JNull (api E ep))).

(** [datetime.now(timezone.utc)]. *)
Definition datetime_now_utc : M datetime :=
  fun w =>
    (State (log w) (csv w) (requests w) (S (clock_reads w))
       (appends w) (total_irrelevant_issues w),
     Ok (Datetime (utcnow E (clock_reads w)) (Some 0%Z))).

(** [datetime.fromisoformat(created_on_str.replace('Z', '+00:00'))]. *)
Definition parse_created_on (created_on_str : json) : result datetime :=
  match created_on_str with
  | JStr s =>
      match fromisoformat E (replace_Z s) with
      | Some created_on => Ok created_on
      | None => Raise (ValueError "Invalid isoformat string")
      end
  | _ => Raise AttributeError
  end.

(** The body of the loop over the listed reports. *)
Definition consider_report (cutoff_date : datetime) (report : json)
    (filtered_report_ids : list json) : M (list json) :=
  let* report_id := lift (py_get report "id" JNull) in
  let* created_on_str := lift (py_get report "createdOn" JNull) in
  if negb (truthy report_id) || negb (truthy created_on_str)
  then ret filtered_report_ids
  else
    try_except
      (let* created_on := lift (parse_created_on created_on_str) in
       let* recent := lift (datetime_ge created_on cutoff_date) in
       ret (if recent : bool then filtered_report_ids ++ [report_id]
            else filtered_report_ids))
      (fun e =>
         let* _ := logging (DateParseFailed report_id e) in
         ret filtered_report_ids).

Fixpoint consider_reports (cutoff_date : datetime) (fix_reports : list json)
    (filtered_report_ids : list json) : M (list json) :=
  match fix_reports with
  | [] => ret filtered_report_ids
  | report :: rest =>
      let* filtered := consider_report cutoff_date report filtered_report_ids in
      consider_reports cutoff_date rest filtered
  end.

Definition get_active_reports : M (list json) :=
  let* response := _make_request ActiveReports in
  if negb (truthy response)
  then let* _ := logging ActiveReportsFailed in ret []
  else
    let* fix_reports := lift (py_get response "fixReport" (JArr [])) in
    let* now := datetime_now_utc in
    let* delta := lift (timedelta_days (days_of_data self)) in
    let* cutoff_date := lift (datetime_sub now delta) in
    let* reports := lift (py_iter fix_reports) in
    let* filtered_report_ids := consider_reports cutoff_date reports [] in
    let* _ := lift (py_len fix_reports) in
    ret filtered_report_ids.

Definition get_fix_report_details (fix_report_id : json) : M json :=
  let* response := _make_request (FixReport fix_report_id) in
  if negb (truthy response)
  then let* _ := logging (DetailsFailed fix_report_id) in ret JNull
  else
    let* fix_reports := lift (py_get response "fixReport" (JArr [])) in
    if negb (truthy fix_reports)
    then let* _ := logging (NoFixReportData fix_report_id) in ret JNull
    else
      let* fix_report := lift (py_first fix_reports) in
      let* vulnerability_report :=
        lift (py_get fix_report "vulnerabilityReport" (JObj ∅)) in
      let* project := lift (py_get vulnerability_report "project" (JObj ∅)) in
      let* project_name :=
        lift (if truthy project then py_get project "name" JNull else Ok JNull) in
      let* repo := lift (py_get fix_report "repo" (JObj ∅)) in
      let* repo_name :=
        lift (if truthy repo then py_get repo "name" JNull else Ok JNull) in
      ret (JObj (<["project_name" := project_name]>
                 (<["repo_name" := repo_name]>
                  {["fix_report_id" := fix_report_id]}))).

Definition get_issues_for_fix_report (fix_report_id : json) : M json :=
  let* response := _make_request (Issues fix_report_id) in
  if negb (truthy response)
  then let* _ := logging (IssuesFailed fix_report_id) in ret (JArr [])
  else
    let* issues_data := lift (py_get response "getIssuesApiV5" (JObj ∅)) in
    let* issues :=
      lift (py_get issues_data "vulnerability_report_issue" (JArr [])) in
    let* _ := lift (py_len issues) in
    ret issues.

(** [_append_to_csv]: whatever happens inside is logged and swallowed. *)
Definition _append_to_csv (issue_data : json) : M unit :=
  fun w =>
    let outcome := csv_append E (appends w) issue_data in
    (State (log w ++ match outcome with
                     | Written => []
                     | NotWritten e | WrittenThenRaised e => [CsvAppendFailed e]
                     end)
       (csv w ++ match outcome with
                 | Written | WrittenThenRaised _ => [issue_data]
                 | NotWritten _ => []
                 end)
       (requests w) (clock_reads w) (S (appends w))
       (total_irrelevant_issues w),
     Ok tt).

(** [_initialize_csv]: (re)creates the file with its header; a failure is
    logged and raised again. *)
Definition _initialize_csv : M unit :=
  fun w =>
    match csv_create E with
    | None =>
        (State (log w) [] (requests w) (clock_reads w) (appends w)
           (total_irrelevant_issues w), Ok tt)
    | Some e =>
        (State (log w ++ [CsvInitFailed e]) (csv w) (requests w)
           (clock_reads w) (appends w) (total_irrelevant_issues w), Raise e)
    end.

End Extractor.

(** [filter_irrelevant_issues] called on a value fresh from [response.json()]:
    every element is an object of its own, so the store is the element list
    and the references are its indices; the kept issues are read back from the
    store the run leaves. *)
Definition filter_fresh (issues : json) : result (list json) :=
  let! elems := py_iter issues in
  let! kept := (filter_irrelevant_issues elems (seq 0 (length elems))).2 in
  Ok ((fun l => (filter_irrelevant_issues elems (seq 0 (length elems))).1 !!! l)
        <$> kept).

(** The [vendorInstanceId] cell of a row. *)
Definition vendor_instance_id (issue : json) : result json :=
  let! value := py_get issue "vendorInstanceId" JNull in
  Ok (match value with
      | JNull => JStr "null"
      | _ => value
      end).

(** The dictionary [issue_data] built for one kept issue. *)
Definition make_issue_data (fix_report_details issue : json) : result json :=
  let! project_name := py_get fix_report_details "project_name" (JStr EmptyString) in
  let! repo_name := py_get fix_report_details "repo_name" (JStr EmptyString) in
  let! vendor := vendor_instance_id issue in
  let! state := py_get issue CONCATENATED_TAGS (JStr EmptyString) in
  let! description := py_get issue "fpDescription" (JStr EmptyString) in
  Ok (JObj (<["project_name" := project_name]>
            (<["repo_name" := repo_name]>
             (<["vendorInstanceId" := vendor]>
              (<["state" := state]>
               {["FPDescription" := description]}))))).

Definition increment_total : M unit :=
  fun w => (State (log w) (csv w) (requests w) (clock_reads w) (appends w)
              (S (total_irrelevant_issues w)), Ok tt).

Definition reset_total : M unit :=
  fun w => (State (log w) (csv w) (requests w) (clock_reads w) (appends w) 0,
            Ok tt).

Definition read_total : M nat :=
  fun w => (w, Ok (total_irrelevant_issues w)).

Section Pipeline.

Variable E : env.
Variable self : extractor.

(** [for issue in irrelevant_issues]: one row, one append, one increment. *)
Fixpoint export_issues (fix_report_details : json) (irrelevant_issues : list json)
  : M unit :=
  match irrelevant_issues with
  | [] => ret tt
  | issue :: rest =>
      let* issue_data := lift (make_issue_data fix_report_details issue) in
      let* _ := _append_to_csv E issue_data in
      let* _ := increment_total in
      export_issues fix_report_details rest
  end.

(** The body of the [try] for one report id. *)
Definition process_report (report_id : json) : M unit :=
  let* fix_report_details := get_fix_report_details E report_id in
  if negb (truthy fix_report_details) then ret tt
  else
    let* issues := get_issues_for_fix_report E report_id in
    if negb (truthy issues) then ret tt
    else
      let* irrelevant_issues := lift (filter_fresh issues) in
      export_issues fix_report_details irrelevant_issues.

(** [for report_id in report_ids], each turn under its own handler. *)
Fixpoint process_reports (report_ids : list json) : M unit :=
  match report_ids with
  | [] => ret tt
  | report_id :: rest =>
      let* _ := try_except (process_report report_id)
                  (fun e => logging (ProcessingFailed report_id e)) in
      process_reports rest
  end.

Definition process_all_reports : M nat :=
  let* report_ids := get_active_reports E self in
  match report_ids with
  | [] => let* _ := logging NoActiveReports in ret 0%nat
  | _ :: _ =>
      let* _ := reset_total in
      let* _ := process_reports report_ids in
      read_total
  end.

(** [run]: a failure of the whole extraction is logged and raised again. *)
Definition run : M unit :=
  try_except (let* _ := process_all_reports in ret tt)
    (fun e => let* _ := logging (FatalError e) in raise e).

End Pipeline.

(** ** Construction *)

(** What opening and parsing [config.json] gives. *)
Inductive config_file : Type :=
  | NoSuchFile
  | NotJson
  | Parsed (config : json).

Definition PLACEHOLDER_TOKEN : string := "YOUR_MOBB_API_TOKEN_HERE".

(** [value == "..."] against a string literal. *)
Definition equals_str (v : json) (s : string) : bool :=
  match v with
  | JStr s' => String.eqb s' s
  | _ => false
  end.

Definition _load_config (file : config_file) : result json :=
  match file with
  | NoSuchFile => Raise FileNotFoundError
  | NotJson => Raise (ValueError "Invalid JSON in configuration file")
  | Parsed config =>
      let! token := py_get config "mobb_api_token" JNull in
      if negb (truthy token) || equals_str token PLACEHOLDER_TOKEN
      then Raise (ValueError "Please set your Mobb API token in config.json")
      else Ok config
  end.

(** [MobbFPExtractor.__init__]: the configuration is loaded first; the output
    file is created last. *)
Definition __init__ (E : env) (file : config_file) : M extractor :=
  let* config := lift (_load_config file) in
  let* token := lift (py_get config "mobb_api_token" JNull) in
  let* tenant := lift (py_get config "tenant" (JStr "api")) in
  let* days := lift (py_get config "daysOfData" (JNum 7)) in
  let* _ := _initialize_csv E in
  ret (Extractor token tenant days).

(** [main]: any exception of the construction or of the run ends the process
    with status 1. *)
Definition main (E : env) (file : config_file) : state -> state * Z :=
  fun w =>
    match (let* self := __init__ E file in run E self) w with
    | (w', Ok _) => (w', 0%Z)
    | (w', Raise _) => (w', 1%Z)
    end.

(** ** The configuration test of [test_config.py] *)

(** [isinstance(v, int)], with the integer: booleans are integers. *)
Definition as_int (v : json) : option Z :=
  match v with
  | JNum n => Some n
  | JBool b => Some (if b then 1 else 0)%Z
  | _ => None
  end.

(** [v[-8:]] is defined for strings and lists only. *)
Definition sliceable (v : json) : bool :=
  match v with
  | JStr _ | JArr _ => true
  | _ => false
  end.

(** [test_configuration]: the script run before the extractor.  It returns
    [False] on every exception. *)
Definition test_configuration (file : config_file) : bool :=
  match file with
  | NoSuchFile | NotJson => false
  | Parsed config =>
      match
        (let! api_token := py_get config "mobb_api_token" JNull in
         let! tenant := py_get config "tenant" JNull in
         let! days_of_data := py_get config "daysOfData" (JNum 7) in
         if negb (truthy api_token) || equals_str api_token PLACEHOLDER_TOKEN
         then Ok false
         else if negb (equals_str tenant "api" || equals_str tenant "api-st-finacct")
         then Ok false
         else
           match as_int days_of_data with
           | None => Ok false
           | Some days =>
               if (days <? 1)%Z then Ok false
               else if sliceable api_token then Ok true
               else Raise TypeError
           end)
      with
      | Ok valid => valid
      | Raise _ => false
      end
  end.

(** ** A reference instance of the date parser *)

(** [datetime.fromisoformat] belongs to Python's library and stays a
    parameter of the development ([fromisoformat] of [env]).  The worked
    examples instantiate it with the fixed-width form
    [YYYY-MM-DDTHH:MM:SS], optionally followed by [+HH:MM] or [-HH:MM],
    which every Python version that has the function reads the same way. *)
Module Iso.

Local Open Scope Z_scope.

Definition digit (c : ascii) : option Z :=
  let n := Z.of_nat (nat_of_ascii c) in
  if (48 <=? n) && (n <=? 57) then Some (n - 48) else None.

Fixpoint number (cs : list ascii) (acc : Z) : option Z :=
  match cs with
  | [] => Some acc
  | c :: rest => d ← digit c; number rest (acc * 10 + d)
  end.

(** The [len] digits that start at position [start]. *)
Definition field (cs : list ascii) (start len : nat) : option Z :=
  let digits := take len (drop start cs) in
  if bool_decide (length digits = len) then number digits 0 else None.

Definition at_position (cs : list ascii) (pos : nat) (c : ascii) : bool :=
  match cs !! pos with
  | Some c' => Ascii.eqb c' c
  | None => false
  end.

Definition is_leap (y : Z) : bool :=
  (y mod 4 =? 0) && (negb (y mod 100 =? 0) || (y mod 400 =? 0)).

Definition days_in_month (y m : Z) : Z :=
  if m =? 2 then (if is_leap y then 29 else 28)
  else if (m =? 4) || (m =? 6) || (m =? 9) || (m =? 11) then 30
  else 31.

(** Days from 1970-01-01 to the given date of the proleptic Gregorian
    calendar. *)
Definition days_from_civil (y m d : Z) : Z :=
  let y' := if m <=? 2 then y - 1 else y in
  let era := y' / 400 in
  let yoe := y' - era * 400 in
  let doy := (153 * ((m + 9) mod 12) + 2) / 5 + d - 1 in
  let doe := yoe * 365 + yoe / 4 - yoe / 100 + doy in
  era * 146097 + doe - 719468.

Definition between (lo x hi : Z) : bool := (lo <=? x) && (x <=? hi).

(** The zone suffix: nothing (a naive datetime) or a signed [HH:MM]. *)
Definition zone (cs : list ascii) : option (option Z) :=
  match cs with
  | [] => Some None
  | sign :: rest =>
      if negb (bool_decide (length rest = 5%nat) && at_position rest 2 ":")
      then None
      else
        hh ← field rest 0 2;
        mm ← field rest 3 2;
        if negb (between 0 hh 23 && between 0 mm 59) then None
        else
          let offset := (hh * 3600 + mm * 60) * 1000000 in
          if Ascii.eqb sign "+" then Some (Some offset)
          else if Ascii.eqb sign "-" then Some (Some (- offset))
          else None
  end.

Definition parse (s : string) : option datetime :=
  let cs := String.list_ascii_of_string s in
  if negb (at_position cs 4 "-" && at_position cs 7 "-" && at_position cs 10 "T"
           && at_position cs 13 ":" && at_position cs 16 ":")
  then None
  else
    y ← field cs 0 4;
    m ← field cs 5 2;
    d ← field cs 8 2;
    hh ← field cs 11 2;
    mi ← field cs 14 2;
    ss ← field cs 17 2;
    offset ← zone (drop 19 cs);
    if negb (between 1 y 9999 && between 1 m 12
             && between 1 d (days_in_month y m)
             && between 0 hh 23 && between 0 mi 59 && between 0 ss 59)
    then None
    else
      Some (Datetime
              ((days_from_civil y m d * 86400 + hh * 3600 + mi * 60 + ss)
               * 1000000)
              offset).

End Iso.


(** ** The pipeline as the specification words it *)

Section Specification.

Variable E : env.

(** What the fetchers and the filter leave alone: the output file, the count
    of appends and the running total. *)
Definition quiet (w w' : state) : Prop :=
  csv w' = csv w /\ appends w' = appends w
  /\ total_irrelevant_issues w' = total_irrelevant_issues w.

(** Only the log may differ. *)
Definition silent (w w' : state) : Prop :=
  csv w' = csv w /\ requests w' = requests w /\ clock_reads w' = clock_reads w
  /\ appends w' = appends w
  /\ total_irrelevant_issues w' = total_irrelevant_issues w.

(** The result of a fetch is a function of the report id alone. *)
Definition details_of (fix_report_id : json) : result json :=
  (get_fix_report_details E fix_report_id initial_state).2.

Definition issues_of (fix_report_id : json) : result json :=
  (get_issues_for_fix_report E fix_report_id initial_state).2.

(** A report reaches the exporter when its details are a record, its issues
    are fetched and non-empty, and the filter gets through them; it then
    hands over the details and the kept issues. *)
Definition reached (report_id : json) : option (json * list json) :=
  match details_of report_id with
  | Ok details =>
      if truthy details then
        match issues_of report_id with
        | Ok issues =>
            if truthy issues then
              match filter_fresh issues with
              | Ok kept => Some (details, kept)
              | Raise _ => None
              end
            else None
        | Raise _ => None
        end
      else None
  | Raise _ => None
  end.

(** The issues the Issue Fetcher returns for a report. *)
Definition report_issues (report_id : json) : list json :=
  match issues_of report_id with
  | Ok issues => match py_iter issues with Ok elems => elems | Raise _ => [] end
  | Raise _ => []
  end.

(** The number of relevant issues of a report that reaches the exporter; a
    report that is skipped or interrupted counts for nothing. *)
Definition relevant_count (report_id : json) : nat :=
  match reached report_id with
  | Some _ => length (List.filter relevant (report_issues report_id))
  | None => 0%nat
  end.

Definition issue_row (fix_report_details issue : json) : json :=
  match make_issue_data fix_report_details issue with
  | Ok issue_data => issue_data
  | Raise _ => JNull
  end.

(** The rows a report hands to [_append_to_csv], in order. *)
Definition report_rows (report_id : json) : list json :=
  match reached report_id with
  | Some (details, kept) => issue_row details <$> kept
  | None => []
  end.

(** From [w] to [w'] the rows [rows] were handed to [_append_to_csv] one by
    one: the total and the count of appends grew by their number, and the file
    grew by those of them that landed, all of them if no append fails to
    write. *)
Definition exported (rows : list json) (w w' : state) : Prop :=
  total_irrelevant_issues w' = (total_irrelevant_issues w + length rows)%nat
  /\ appends w' = (appends w + length rows)%nat
  /\ exists landed,
       csv w' = csv w ++ landed
       /\ sublist landed rows
       /\ ((forall k row e, csv_append E k row <> NotWritten e) -> landed = rows).

(** *** The Lister *)

Definition report_id_of (report : json) : json :=
  match report with
  | JObj d => default JNull (d !! "id")
  | _ => JNull
  end.

(** The instant of an aware datetime, in microseconds since the epoch. *)
Definition instant (dt : datetime) : option Z :=
  (fun offset => (wall dt - offset)%Z) <$> utcoffset dt.

(** The instant a report was created at: its [createdOn] is a non-empty
    string that parses to an aware datetime. *)
Definition created_instant (report : json) : option Z :=
  match report with
  | JObj d =>
      match d !! "createdOn" with
      | Some (JStr s) =>
          if truthy (JStr s)
          then dt ← fromisoformat E (replace_Z s); instant dt
          else None
      | _ => None
      end
  | _ => None
  end.

(** A report is listed when it has a true id and was created at or after the
    cutoff instant. *)
Definition listed (cutoff : Z) (report : json) : bool :=
  truthy (report_id_of report)
  && match created_instant report with
     | Some created => (cutoff <=? created)%Z
     | None => false
     end.

(** The Lister's criterion as the specification words it: the [createdOn]
    timestamp parses and is at or after the cutoff (a timestamp without a zone
    read as UTC). *)
Definition parses_at_or_after (cutoff : Z) (report : json) : bool :=
  match report with
  | JObj d =>
      match d !! "createdOn" with
      | Some (JStr s) =>
          match fromisoformat E (replace_Z s) with
          | Some dt => (cutoff <=? wall dt - default 0%Z (utcoffset dt))%Z
          | None => false
          end
      | _ => false
      end
  | _ => false
  end.

End Specification.

(** *** The configuration *)

(** The credential is missing (absent, [None] or otherwise false) or is the
    placeholder of the sample file. *)
Definition credential_missing (config : gmap string json) : bool :=
  match config !! "mobb_api_token" with
  | None => true
  | Some token => negb (truthy token) || equals_str token PLACEHOLDER_TOKEN
  end.

(** Unfolding the plumbing of a computation down to its case analysis. *)
Ltac run_monad :=
  unfold bind, lift, ret, logging, raise, _make_request in *; simpl in *.

(** ** A worked tenant *)

(** A small tenant on which the pipeline is run in the worked examples.  The
    clock reads 2026-11-04T00:00:00Z and the window is seven days, so the
    cutoff is 2026-10-28T00:00:00Z. *)
Module Demo.

Definition report (id created_on : string) : json :=
  JObj (<["id" := JStr id]> {["createdOn" := JStr created_on]}).

(** [r1] is recent; [r2] is forty days old; [r3] is recent and its detail
    payload is empty; [r4] is recent and its [vulnerabilityReport] is [None];
    [r5] has a timestamp that does not parse; the sixth report has an empty id
    and the seventh a timestamp without a zone. *)
Definition reports : list json := [
  report "r1" "2026-11-03T12:30:00Z";
  report "r2" "2026-09-25T08:00:00Z";
  report "r3" "2026-11-02T09:00:00+02:00";
  report "r4" "2026-11-03T23:59:59Z";
  report "r5" "yesterday";
  report EmptyString "2026-11-03T12:30:00Z";
  report "r7" "2026-11-03T12:30:00"
].

Definition listing_body : gmap string json := {["fixReport" := JArr reports]}.

Definition listing : json := JObj listing_body.

Definition details (fix_report : json) : json :=
  JObj {["fixReport" := JArr [fix_report]]}.

Definition issues (issues : list json) : json :=
  JObj {["getIssuesApiV5" := JObj {["vulnerability_report_issue" := JArr issues]}]}.

Definition responses (ep : endpoint) : option json :=
  match ep with
  | ActiveReports => Some listing
  | FixReport (JStr "r1") =>
      Some (details
              (JObj (<["vulnerabilityReport"
                       := JObj {["project" := JObj {["name" := JStr "shop"]}]}]>
                     {["repo" := JObj {["name" := JStr "shop-api"]}]})))
  | FixReport (JStr "r3") => Some (JObj {["fixReport" := JArr []]})
  | FixReport (JStr "r4") =>
      Some (details (JObj {["vulnerabilityReport" := JNull]}))
  | Issues (JStr "r1") => Some (issues demo_store)
  | Issues (JStr "r3") => Some (issues [demo_issue_c])
  | Issues (JStr "r4") => Some (issues [demo_issue_a])
  | _ => None
  end.

Definition NOW : Z := 1793750400000000.
Definition CUTOFF : Z := 1793145600000000.

(** Every append lands. *)
Definition E : env :=
  Env responses (fun _ => NOW) Iso.parse (fun _ _ => Written) None.

(** No append lands: the disk is full. *)
Definition E_full_disk : env :=
  Env responses (fun _ => NOW) Iso.parse (fun _ _ => NotWritten OSError) None.

Definition self : extractor := Extractor (JStr "secret") (JStr "api") (JNum 7).

(** An export row, cell by cell. *)
Definition row (project_name repo_name vendor state description : json) : json :=
  JObj (<["project_name" := project_name]>
        (<["repo_name" := repo_name]>
         (<["vendorInstanceId" := vendor]>
          (<["state" := state]>
           {["FPDescription" := description]})))).

(** The two rows of [r1]. *)
Definition rows : list json := [
  row (JStr "shop") (JStr "shop-api") (JStr "v-1")
    (JStr "fp-confirmed | wont-fix") (JStr EmptyString);
  row (JStr "shop") (JStr "shop-api") (JStr "null")
    (JStr "noise") (JStr EmptyString)
].

End Demo.

(** ** The batch writer *)

(** The columns of the output file, in order. *)
Definition FIELDNAMES : list string :=
  ["project_name"; "repo_name"; "vendorInstanceId"; "state"; "FPDescription"].

(** The row [csv.DictWriter] writes for a dictionary: the cell of every
    column, the empty string where the dictionary has no such key. *)
Definition cells_of (rowdict : gmap string json) : json :=
  JObj (list_to_map
          ((fun key => (key, default (JStr EmptyString) (rowdict !! key)))
             <$> FIELDNAMES)).

(** [DictWriter._dict_to_list]: a key that is no column is a [ValueError]
    (the writer is built with the default [extrasaction]); what is not a
    dictionary has no [keys]. *)
Definition _dict_to_list (rowdict : json) : result json :=
  match rowdict with
  | JObj d =>
      if forallb (fun key => bool_decide (key ∈ FIELDNAMES)) (map_to_list d).*1
      then Ok (cells_of d)
      else Raise (ValueError "dict contains fields not in fieldnames")
  | _ => Raise AttributeError
  end.

(** [writer.writerows]: the rows before the first one that raises are in the
    file. *)
Fixpoint writerows (rowdicts : list json) (file : list json)
  : list json * result unit :=
  match rowdicts with
  | [] => (file, Ok tt)
  | rowdict :: rest =>
      match _dict_to_list rowdict with
      | Ok row => writerows rest (file ++ [row])
      | Raise e => (file, Raise e)
      end
  end.

(** The warning and the error line of [write_csv_report]. *)
Inductive report_log : Type :=
  | NothingToWrite
  | WritingFailed (e : exn).

(** [write_csv_report], on the data rows the file holds: the new rows of the
    file, the lines logged, and the outcome.  The file is opened for writing,
    which empties it; a failure of the environment is taken at the opening, as
    in [_initialize_csv]. *)
Definition write_csv_report (E : env) (irrelevant_issues : json)
    (file : list json) : list json * list report_log * result unit :=
  if negb (truthy irrelevant_issues) then (file, [NothingToWrite], Ok tt)
  else
    match py_len irrelevant_issues with
    | Raise e => (file, [], Raise e)
    | Ok _ =>
        match csv_create E with
        | Some e => (file, [WritingFailed e], Raise e)
        | None =>
            match py_iter irrelevant_issues with
            | Raise e => ([], [WritingFailed e], Raise e)
            | Ok rowdicts =>
                match writerows rowdicts [] with
                | (file', Ok _) => (file', [], Ok tt)
                | (file', Raise e) => (file', [WritingFailed e], Raise e)
                end
            end
        end
    end.

(** ** The connectivity test of [test_config.py] *)

Section Connectivity.

Variable E : env.

(** The body of the counting loop: a report whose timestamp cannot be read or
    compared is passed over. *)
Definition count_report (cutoff_date : datetime) (report : json)
    (filtered_count : nat) : result nat :=
  let! created_on_str := py_get report "createdOn" JNull in
  if truthy created_on_str then
    match (let! created_on := parse_created_on E created_on_str in
           datetime_ge created_on cutoff_date) with
    | Ok recent => Ok (if recent : bool then S filtered_count else filtered_count)
    | Raise _ => Ok filtered_count
    end
  else Ok filtered_count.

Fixpoint count_reports (cutoff_date : datetime) (fix_reports : list json)
    (filtered_count : nat) : result nat :=
  match fix_reports with
  | [] => Ok filtered_count
  | report :: rest =>
      let! count := count_report cutoff_date report filtered_count in
      count_reports cutoff_date rest count
  end.

(** [test_api_connectivity]: constructs an extractor, lists the active
    reports once and counts the recent ones; every exception gives [False]. *)
Definition test_api_connectivity (file : config_file) : M bool :=
  try_except
    (let* extractor := __init__ E file in
     let* response := _make_request E ActiveReports in
     match response with
     | JNull => ret false
     | _ =>
         let* fix_reports := lift (py_get response "fixReport" (JArr [])) in
         let* _ := lift (py_len fix_reports) in
         let* now := datetime_now_utc E in
         let* delta := lift (timedelta_days (days_of_data extractor)) in
         let* cutoff_date := lift (datetime_sub now delta) in
         let* reports := lift (py_iter fix_reports) in
         let* _ := lift (count_reports cutoff_date reports 0) in
         ret true
     end)
    (fun _ => ret false).

End Connectivity.

Module TestConfig.

(** [main] of [test_config.py]: both tests must pass. *)
Definition main (E : env) (file : config_file) : state -> state * Z :=
  fun w =>
    if negb (test_configuration file) then (w, 1%Z)
    else
      match test_api_connectivity E file w with
      | (w', Ok true) => (w', 0%Z)
      | (w', _) => (w', 1%Z)
      end.

End TestConfig.

(** ** More of the pipeline in the specification's words *)

Section MoreSpecification.

Variable E : env.

(** The requests one report costs: its details, and its issues once the
    details came back as a record. *)
Definition report_requests (report_id : json) : list endpoint :=
  FixReport report_id
  :: match details_of E report_id with
     | Ok details => if truthy details then [Issues report_id] else []
     | Raise _ => []
     end.

(** [v.get(key, dflt)] of a value known to be a dictionary. *)
Definition get_or (v : json) (key : string) (dflt : json) : json :=
  match v with
  | JObj d => default dflt (d !! key)
  | _ => dflt
  end.

(** The export row of an issue of a report, cell by cell. *)
Definition export_row (fix_report_details issue : json) : json :=
  JObj (<["project_name" := get_or fix_report_details "project_name" (JStr EmptyString)]>
        (<["repo_name" := get_or fix_report_details "repo_name" (JStr EmptyString)]>
         (<["vendorInstanceId"
            := match get_or issue "vendorInstanceId" JNull with
               | JNull => JStr "null"
               | value => value
               end]>
          (<["state" := JStr (join SEPARATOR (nonempty_tag_values issue))]>
           {["FPDescription" := get_or issue "fpDescription" (JStr EmptyString)]})))).

(** The number of listed reports the connectivity test counts as recent: the
    [createdOn] parses to an aware instant at or after the cutoff, whatever
    the id. *)
Definition counted (cutoff : Z) (report : json) : bool :=
  match created_instant E report with
  | Some created => (cutoff <=? created)%Z
  | None => false
  end.

(** The reports of the listing response, when it is a record with a list
    under [fixReport]. *)
Definition listing_reports : list json :=
  match api E ActiveReports with
  | Some (JObj body) =>
      match body !! "fixReport" with
      | Some (JArr fix_reports) => fix_reports
      | _ => []
      end
  | _ => []
  end.

End MoreSpecification.

Definition is_record (v : json) : bool :=
  match v with
  | JObj _ => true
  | _ => false
  end.

(** The state the loop of the Lister starts in: the listing was requested and
    the clock was read. *)
Definition listing_read (w : state) : state :=
  State (log w) (csv w) (requests w ++ [ActiveReports]) (S (clock_reads w))
    (appends w) (total_irrelevant_issues w).

(** * The reference date parser at work *)

Example iso_parse_utc :
  Iso.parse (replace_Z "2026-11-03T12:30:00Z")
  = Some (Datetime 1793709000000000 (Some 0%Z)).
Proof. vm_compute. reflexivity. Qed.

Example iso_parse_offset :
  Iso.parse "2026-11-03T12:30:00+02:00"
  = Some (Datetime 1793709000000000 (Some 7200000000%Z)).
Proof. vm_compute. reflexivity. Qed.

Example iso_parse_naive :
  Iso.parse "2026-11-03T12:30:00" = Some (Datetime 1793709000000000 None).
Proof. vm_compute. reflexivity. Qed.

Example iso_parse_garbage : Iso.parse "yesterday" = None.
Proof. vm_compute. reflexivity. Qed.

(** * Properties of the relevance filter *)

Section FilterFacts.

Implicit Types (h : list json) (l : nat) (issue tag : json).

Lemma rbind_ok {A B} (m : result A) (k : A -> result B) (b : B) :
  rbind m k = Ok b -> exists a, m = Ok a /\ k a = Ok b.
Proof. destruct m as [a|e]; csimpl; [eauto | discriminate]. Qed.

(** **** The inner loop *)

Lemma collect_tag_values_ok tags acc :
  Forall (fun tag => exists d, tag = JObj d) tags ->
  collect_tag_values tags acc
  = Ok (acc ++ List.filter truthy (tag_value_of <$> tags)).
Proof.
  intros Hobj. revert acc.
  induction Hobj as [|tag tags [d ->] _ IH]; intros acc; csimpl.
  - by rewrite app_nil_r.
  - rewrite IH. destruct (truthy _); [by rewrite <- app_assoc | done].
Qed.

Lemma collect_tag_values_inv tags acc values :
  collect_tag_values tags acc = Ok values ->
  Forall (fun tag => exists d, tag = JObj d) tags.
Proof.
  revert acc. induction tags as [|tag tags IH]; intros acc H; [constructor|].
  csimpl in H. apply rbind_ok in H as (v & Hget & H).
  constructor; [|by eapply IH].
  destruct tag; try discriminate. eauto.
Qed.

Lemma strings_of_inv values ss :
  strings_of values = Ok ss -> values = JStr <$> ss.
Proof.
  revert ss. induction values as [|v values IH]; intros ss H; csimpl in H.
  - by inversion H.
  - destruct v; try discriminate.
    apply rbind_ok in H as (ss' & H1 & H2). inversion H2; subst.
    csimpl. f_equal. by apply IH.
Qed.

Lemma strings_of_fmap ss : strings_of (JStr <$> ss) = Ok ss.
Proof. induction ss as [|s ss IH]; csimpl; [done | by rewrite IH]. Qed.

(** The true values are the texts, once all of them are strings. *)
Lemma texts_of_true_values tags ss :
  List.filter truthy (tag_value_of <$> tags) = JStr <$> ss ->
  omap tag_text tags = ss.
Proof.
  revert ss. induction tags as [|tag tags IH]; intros ss H; csimpl in *.
  - by destruct ss.
  - unfold tag_text at 1. destruct (truthy (tag_value_of tag)) eqn:Ht.
    + destruct ss as [|s ss]; [discriminate|]. csimpl in H.
      inversion H as [[Hv Hrest]]. rewrite Hv in Ht |- *. rewrite Ht.
      csimpl. f_equal. by apply IH.
    + destruct (tag_value_of tag); try (by apply IH).
      rewrite Ht. by apply IH.
Qed.

Lemma true_values_typed tags :
  forallb tag_typed tags = true ->
  List.filter truthy (tag_value_of <$> tags) = JStr <$> omap tag_text tags.
Proof.
  induction tags as [|tag tags IH]; csimpl; [done|].
  intros [Ht Hrest]%andb_true_iff. specialize (IH Hrest).
  unfold tag_text at 1. destruct tag; try discriminate. csimpl in *.
  destruct (d !! TAG_VALUE) as [[]|]; csimpl in *; try discriminate; try done.
  destruct (negb _); csimpl; by rewrite IH.
Qed.

Lemma relevant_nonempty issue :
  relevant issue = match nonempty_tag_values issue with [] => false | _ => true end.
Proof.
  unfold relevant, nonempty_tag_values.
  induction (issue_tags issue) as [|tag tags IH]; csimpl; [done|].
  destruct (tag_text tag); csimpl; [done|]. apply IH.
Qed.

(** **** One issue *)

(** Whenever the loop body gets through, it keeps exactly the relevant issues
    and joins exactly their non-empty tag values. *)
Lemma concatenated_tags_inv issue r :
  concatenated_tags issue = Ok r ->
  r = if relevant issue
      then Some (join SEPARATOR (nonempty_tag_values issue))
      else None.
Proof.
  intros H. rewrite relevant_nonempty. unfold concatenated_tags in H.
  apply rbind_ok in H as (tags & Hget & H).
  destruct issue as [| | | | |d]; try discriminate. csimpl in Hget.
  inversion Hget as [Htags]; clear Hget. unfold nonempty_tag_values. csimpl.
  destruct (truthy tags) eqn:Htruthy.
  - apply rbind_ok in H as (elems & Hiter & H).
    apply rbind_ok in H as (values & Hcollect & H).
    pose proof (collect_tag_values_inv _ _ _ Hcollect) as Hobj.
    rewrite (collect_tag_values_ok _ _ Hobj) in Hcollect. csimpl in Hcollect.
    inversion Hcollect as [Hvalues]; clear Hcollect.
    assert (Helems : elems = match d !! TAGS with
                                | Some (JArr ts) => ts | _ => [] end).
    { destruct (d !! TAGS) as [[| | |s| |d']|]; csimpl in *; subst tags;
        csimpl in *; try discriminate.
      - destruct s as [|c s]; [discriminate|]. inversion Hiter; subst.
        inversion Hobj as [|? ? [? ?]]; discriminate.
      - by inversion Hiter.
      - inversion Hiter; subst.
        destruct (map_to_list d') as [|[k v] kvs] eqn:Hkvs.
        + apply map_to_list_empty_iff in Hkvs. subst d'.
          by rewrite bool_decide_eq_true_2 in Htruthy.
        + inversion Hobj as [|? ? [? ?]]; discriminate. }
    rewrite <- Helems.
    destruct values as [|v values].
    + inversion H; subst r.
      by rewrite (texts_of_true_values elems []).
    + apply rbind_ok in H as (s & Hjoin & H). inversion H; subst r.
      unfold py_join in Hjoin. apply rbind_ok in Hjoin as (ss & Hss & Hjoin).
      inversion Hjoin; subst s. apply strings_of_inv in Hss.
      rewrite Hss in Hvalues.
      rewrite (texts_of_true_values elems ss Hvalues).
      destruct ss; [discriminate | done].
  - inversion H; subst r.
    destruct (d !! TAGS) as [[| | | |ts|]|]; csimpl in *; subst tags; try done.
    by destruct ts.
Qed.

(** An issue of the data model's shape always gets through. *)
Lemma concatenated_tags_typed issue :
  issue_typed issue = true -> exists r, concatenated_tags issue = Ok r.
Proof.
  intros Ht. destruct issue as [| | | | |d]; try discriminate.
  unfold concatenated_tags. csimpl in *.
  destruct (d !! TAGS) as [[| | | |ts|]|]; csimpl in *; try discriminate; eauto.
  destruct ts as [|t ts]; [csimpl; eauto|]. cbn -[collect_tag_values].
  rewrite collect_tag_values_ok.
  2:{ apply Forall_forall. intros tag Hin.
      rewrite forallb_forall in Ht.
      apply list_elem_of_In, Ht in Hin. destruct tag; try discriminate. eauto. }
  rewrite (true_values_typed (t :: ts)) by done. cbn [rbind app].
  destruct (omap tag_text (t :: ts)) as [|s ss] eqn:Hss; [csimpl; eauto|].
  unfold py_join. rewrite strings_of_fmap. csimpl. eauto.
Qed.

(** Attaching the joined string leaves the tags, hence the verdict, alone. *)
Lemma concatenated_tags_set_item issue v :
  concatenated_tags (set_item issue CONCATENATED_TAGS v) = concatenated_tags issue.
Proof.
  destruct issue; try done. unfold concatenated_tags. csimpl.
  by rewrite lookup_insert_ne.
Qed.

Lemma concatenated_tags_attach issue :
  concatenated_tags (attach issue) = concatenated_tags issue.
Proof.
  unfold attach. destruct (concatenated_tags issue) as [[s|]|] eqn:H; try done.
  by rewrite concatenated_tags_set_item.
Qed.

Lemma set_item_twice issue key v w :
  set_item (set_item issue key v) key w = set_item issue key w.
Proof. destruct issue; try done. csimpl. by rewrite insert_insert_eq. Qed.

Lemma attach_attach issue : attach (attach issue) = attach issue.
Proof.
  unfold attach at 1. rewrite concatenated_tags_attach.
  unfold attach. destruct (concatenated_tags issue) as [[s|]|]; try done.
  apply set_item_twice.
Qed.

(** **** The outer loop *)

Lemma stamped_refl h : stamped h h.
Proof. intros l. by left. Qed.

Lemma stamped_lookup h0 h l issue :
  stamped h0 h -> h !! l = Some issue ->
  exists issue0, h0 !! l = Some issue0 /\ (issue = issue0 \/ issue = attach issue0).
Proof.
  intros Hst Hl. destruct (Hst l) as [H|H]; rewrite Hl in H.
  - eauto.
  - destruct (h0 !! l) as [issue0|]; [|discriminate].
    inversion H. eauto.
Qed.

Lemma stamped_verdict h0 h l issue :
  stamped h0 h -> h !! l = Some issue ->
  exists issue0, h0 !! l = Some issue0
    /\ concatenated_tags issue = concatenated_tags issue0.
Proof.
  intros Hst Hl. destruct (stamped_lookup _ _ _ _ Hst Hl) as (i0 & H0 & [->| ->]).
  - eauto.
  - exists i0. by rewrite concatenated_tags_attach.
Qed.

(** The assignment in the loop writes [attach] of the original issue, whether
    or not the same dictionary was met before. *)
Lemma stamped_assignment h0 h l issue s :
  stamped h0 h -> h !! l = Some issue -> concatenated_tags issue = Ok (Some s) ->
  exists issue0, h0 !! l = Some issue0
    /\ concatenated_tags issue0 = Ok (Some s)
    /\ set_item issue CONCATENATED_TAGS (JStr s) = attach issue0.
Proof.
  intros Hst Hl Hc.
  destruct (stamped_lookup _ _ _ _ Hst Hl) as (i0 & H0 & [->| ->]).
  - exists i0. unfold attach. by rewrite Hc.
  - rewrite concatenated_tags_attach in Hc. exists i0.
    unfold attach. rewrite Hc. split_and!; try done. apply set_item_twice.
Qed.

Lemma stamped_insert h0 h l issue0 :
  stamped h0 h -> h0 !! l = Some issue0 -> stamped h0 (<[l := attach issue0]> h).
Proof.
  intros Hst H0 l'. destruct (decide (l = l')) as [<-|Hne].
  - right. rewrite H0. csimpl. apply list_lookup_insert_eq.
    destruct (Hst l) as [H|H]; rewrite H0 in H; by eapply lookup_lt_Some.
  - rewrite list_lookup_insert_ne by done. apply Hst.
Qed.

(** Any run, finished or interrupted, leaves a stamped store of the same size. *)
Lemma filter_loop_stamped h0 issues : forall h acc h' r,
  stamped h0 h -> filter_loop issues h acc = (h', r) ->
  stamped h0 h' /\ length h' = length h.
Proof.
  induction issues as [|l issues IH]; intros h acc h' r Hst Hrun; csimpl in Hrun.
  - by inversion Hrun; subst.
  - destruct (h !! l) as [issue|] eqn:Hl; [|by inversion Hrun; subst].
    destruct (concatenated_tags issue) as [[s|]|e] eqn:Hc.
    + destruct (stamped_assignment _ _ _ _ _ Hst Hl Hc) as (i0 & H0 & _ & Heq).
      rewrite Heq in Hrun.
      apply IH in Hrun as [? Hlen]; [|by apply stamped_insert].
      by rewrite length_insert in Hlen.
    + by eapply IH.
    + by inversion Hrun; subst.
Qed.

(** A finished run: what was kept, and what the store holds afterwards. *)
Lemma filter_loop_ok h0 issues : forall h acc h' out,
  stamped h0 h -> filter_loop issues h acc = (h', Ok out) ->
  out = acc ++ List.filter (keeps h0) issues
  /\ Forall (fun l => exists issue r,
               h0 !! l = Some issue /\ concatenated_tags issue = Ok r) issues
  /\ forall l, h' !! l = if bool_decide (l ∈ List.filter (keeps h0) issues)
                         then attach <$> h0 !! l else h !! l.
Proof.
  induction issues as [|l issues IH]; intros h acc h' out Hst Hrun; csimpl in Hrun.
  - inversion Hrun; subst. rewrite app_nil_r. split_and!; [done|constructor|done].
  - destruct (h !! l) as [issue|] eqn:Hl; [|discriminate].
    destruct (stamped_verdict _ _ _ _ Hst Hl) as (i0 & H0 & Hsame).
    assert (Hk : keeps h0 l = match concatenated_tags issue with
                              | Ok (Some _) => true | _ => false end).
    { unfold keeps, at_loc. by rewrite H0, Hsame. }
    csimpl. rewrite Hk.
    destruct (concatenated_tags issue) as [[s|]|e] eqn:Hc; [| |discriminate].
    + destruct (stamped_assignment _ _ _ _ _ Hst Hl Hc) as (i0' & H0' & _ & Heq).
      rewrite Heq in Hrun. assert (i0' = i0) as -> by congruence.
      apply IH in Hrun as (-> & Hall & Hstore); [|by apply stamped_insert].
      split_and!.
      * by rewrite <- app_assoc.
      * constructor; [|done]. exists i0, (Some s). by rewrite <- Hsame.
      * intros l'. rewrite Hstore. destruct (decide (l' = l)) as [->|Hne].
        -- rewrite (bool_decide_eq_true_2 (l ∈ l :: _)) by left.
           case_bool_decide; [done|]. rewrite H0. csimpl.
           apply list_lookup_insert_eq. by eapply lookup_lt_Some.
        -- rewrite list_lookup_insert_ne by done.
           rewrite (bool_decide_ext (l' ∈ l :: List.filter (keeps h0) issues)
                      (l' ∈ List.filter (keeps h0) issues)); [done|].
           rewrite elem_of_cons. split; [by intros [?|?] | by right].
    + apply IH in Hrun as (-> & Hall & Hstore); [|done].
      split_and!; [done| |done].
      constructor; [|done]. exists i0, None. by rewrite <- Hsame.
Qed.

(** Issues of the data model's shape never interrupt the run. *)
Lemma filter_loop_total h0 issues : forall h acc,
  stamped h0 h -> Forall (fun l => at_loc issue_typed h0 l = true) issues ->
  exists h' out, filter_loop issues h acc = (h', Ok out).
Proof.
  induction issues as [|l issues IH]; intros h acc Hst Hty; csimpl; [eauto|].
  inversion Hty as [|? ? Hl Hrest]; subst. unfold at_loc in Hl.
  destruct (h0 !! l) as [i0|] eqn:H0; [|discriminate].
  destruct (concatenated_tags_typed _ Hl) as [r Hr].
  assert (exists issue, h !! l = Some issue
            /\ concatenated_tags issue = Ok r) as (issue & Hi & Hc).
  { destruct (Hst l) as [H|H]; rewrite H0 in H; csimpl in H; eauto.
    eexists; split; [done|]. by rewrite concatenated_tags_attach. }
  rewrite Hi, Hc. destruct r as [s|]; [|by apply IH].
  destruct (stamped_assignment _ _ _ _ _ Hst Hi Hc) as (i0' & H0' & _ & Heq).
  rewrite Heq. assert (i0' = i0) as -> by congruence.
  apply IH; [by apply stamped_insert | done].
Qed.

(** On a store where every listed issue already carries its own joined string
    the loop keeps everything and writes nothing new. *)
Lemma filter_loop_fixed h issues : forall acc,
  Forall (fun l => exists issue s, h !! l = Some issue
            /\ concatenated_tags issue = Ok (Some s)
            /\ set_item issue CONCATENATED_TAGS (JStr s) = issue) issues ->
  filter_loop issues h acc = (h, Ok (acc ++ issues)).
Proof.
  induction issues as [|l issues IH]; intros acc Hall; csimpl.
  - by rewrite app_nil_r.
  - inversion Hall as [|? ? (issue & s & Hl & Hc & Hfix) Hrest]; subst.
    rewrite Hl, Hc, Hfix, list_insert_id by done.
    rewrite IH by done. by rewrite <- app_assoc.
Qed.

Lemma filter_loop_again h issues h' out :
  filter_loop issues h [] = (h', Ok out) -> filter_loop out h' [] = (h', Ok out).
Proof.
  intros Hrun.
  destruct (filter_loop_ok h issues h [] h' out (stamped_refl h) Hrun)
    as (-> & _ & Hstore).
  csimpl. apply (filter_loop_fixed h' _ []).
  apply Forall_forall. intros l Hin.
  specialize (Hstore l). rewrite bool_decide_eq_true_2 in Hstore by done.
  apply list_elem_of_In, filter_In in Hin as [_ Hkeep].
  unfold keeps, at_loc in Hkeep.
  destruct (h !! l) as [issue|]; [|discriminate].
  destruct (concatenated_tags issue) as [[s|]|] eqn:Hc; try discriminate.
  exists (attach issue), s. split_and!; [done|by rewrite concatenated_tags_attach|].
  unfold attach. rewrite Hc. apply set_item_twice.
Qed.

Lemma keeps_relevant h l issue r :
  h !! l = Some issue -> concatenated_tags issue = Ok r ->
  keeps h l = at_loc relevant h l.
Proof.
  intros Hl Hc. unfold keeps, at_loc. rewrite Hl, Hc.
  apply concatenated_tags_inv in Hc. by destruct (relevant issue); subst r.
Qed.

End FilterFacts.

(** * Properties of the fetchers and of the pipeline *)

Section WorldFacts.

Variable E : env.

Lemma quiet_refl w : quiet w w.
Proof. done. Qed.

Lemma quiet_trans w1 w2 w3 : quiet w1 w2 -> quiet w2 w3 -> quiet w1 w3.
Proof. unfold quiet. intros (?&?&?) (?&?&?). split_and!; congruence. Qed.

Lemma get_fix_report_details_run fix_report_id w :
  exists w', get_fix_report_details E fix_report_id w
             = (w', details_of E fix_report_id)
    /\ quiet w w'.
Proof.
  unfold details_of, get_fix_report_details. run_monad.
  repeat (case_match; run_monad; simplify_eq); eexists; (split; [reflexivity|done]).
Qed.

Lemma get_issues_for_fix_report_run fix_report_id w :
  exists w', get_issues_for_fix_report E fix_report_id w
             = (w', issues_of E fix_report_id)
    /\ quiet w w'.
Proof.
  unfold issues_of, get_issues_for_fix_report. run_monad.
  repeat (case_match; run_monad; simplify_eq); eexists; (split; [reflexivity|done]).
Qed.

(** The details are [None] or a dictionary, never anything else. *)
Lemma details_of_shape fix_report_id details :
  details_of E fix_report_id = Ok details ->
  details = JNull \/ exists d, details = JObj d.
Proof.
  unfold details_of, get_fix_report_details. run_monad.
  repeat (case_match; run_monad; simplify_eq); intros; simplify_eq; eauto.
Qed.

Lemma bind_ok {A B} (m : M A) (k : A -> M B) w w1 a :
  m w = (w1, Ok a) -> bind m k w = k a w1.
Proof. unfold bind. by intros ->. Qed.

Lemma bind_raise {A B} (m : M A) (k : A -> M B) w w1 e :
  m w = (w1, Raise e) -> bind m k w = (w1, Raise e).
Proof. unfold bind. by intros ->. Qed.

(** **** Reading the kept issues back *)

Lemma filter_indices (P : json -> bool) (pre xs : list json) :
  (fun l => (pre ++ xs) !!! l)
    <$> List.filter (at_loc P (pre ++ xs)) (seq (length pre) (length xs))
  = List.filter P xs.
Proof.
  revert pre. induction xs as [|x xs IH]; intros pre; [done|].
  cbn [length seq List.filter]. unfold at_loc at 1.
  rewrite list_lookup_middle by done.
  specialize (IH (pre ++ [x])).
  rewrite <- app_assoc, length_app in IH. cbn [length app] in IH.
  rewrite Nat.add_1_r in IH.
  destruct (P x); [|done]. csimpl. rewrite IH. f_equal.
  apply list_lookup_total_middle. done.
Qed.

(** On a fresh list the filter hands back the relevant elements, each with its
    joined string attached, or raises. *)
Lemma filter_fresh_ok issues kept :
  filter_fresh issues = Ok kept ->
  exists elems, py_iter issues = Ok elems
    /\ kept = attach <$> List.filter relevant elems.
Proof.
  unfold filter_fresh. intros H.
  apply rbind_ok in H as (elems & Hiter & H). exists elems. split; [done|].
  apply rbind_ok in H as (out & Hout & H). inversion H; subst kept; clear H.
  destruct (filter_irrelevant_issues elems (seq 0 (length elems))) as [h' r] eqn:Hrun.
  csimpl in *. subst r. unfold filter_irrelevant_issues in Hrun.
  destruct (filter_loop_ok elems _ elems [] h' out (stamped_refl _) Hrun)
    as (-> & Hall & Hstore). csimpl.
  assert (Hsame : List.filter (keeps elems) (seq 0 (length elems))
                  = List.filter (at_loc relevant elems) (seq 0 (length elems))).
  { apply filter_ext_in. intros l Hin%list_elem_of_In.
    rewrite Forall_forall in Hall.
    destruct (Hall l Hin) as (issue & r & Hl & Hc). by eapply keeps_relevant. }
  rewrite <- (filter_indices relevant [] elems). csimpl.
  rewrite <- Hsame, <- list_fmap_compose.
  apply Forall_fmap_ext_1, Forall_forall. intros l Hin. csimpl.
  specialize (Hstore l). rewrite bool_decide_eq_true_2 in Hstore by done.
  apply list_elem_of_In, filter_In in Hin as [_ Hkeep].
  unfold keeps, at_loc in Hkeep.
  destruct (elems !! l) as [issue|] eqn:Hl; [|discriminate].
  rewrite (list_lookup_total_correct _ _ _ Hl). csimpl in Hstore.
  by apply list_lookup_total_correct.
Qed.

(** **** The exporter *)

Lemma exported_nil w w' : quiet w w' -> exported E [] w w'.
Proof.
  intros (Hcsv & Happ & Htot). unfold exported. csimpl.
  rewrite Htot, Happ, !Nat.add_0_r. split_and!; [done|done|].
  exists []. rewrite Hcsv, app_nil_r. split_and!; [done|constructor|done].
Qed.

Lemma exported_app rows1 rows2 w w1 w2 :
  exported E rows1 w w1 -> exported E rows2 w1 w2 ->
  exported E (rows1 ++ rows2) w w2.
Proof.
  intros (Ht1 & Ha1 & l1 & Hc1 & Hs1 & Hall1) (Ht2 & Ha2 & l2 & Hc2 & Hs2 & Hall2).
  unfold exported. rewrite length_app. split_and!; [lia|lia|].
  exists (l1 ++ l2). split_and!.
  - by rewrite Hc2, Hc1, app_assoc.
  - by apply sublist_app.
  - intros Hno. by rewrite Hall1, Hall2.
Qed.

Lemma make_issue_data_obj (details issue : gmap string json) :
  exists row, make_issue_data (JObj details) (JObj issue) = Ok (JObj row).
Proof. unfold make_issue_data, vendor_instance_id. csimpl. eauto. Qed.

Lemma _append_to_csv_exported issue_data w :
  exists w', _append_to_csv E issue_data w = (w', Ok tt)
    /\ total_irrelevant_issues w' = total_irrelevant_issues w
    /\ appends w' = S (appends w)
    /\ exists landed,
         csv w' = csv w ++ landed
         /\ sublist landed [issue_data]
         /\ ((forall k row e, csv_append E k row <> NotWritten e)
             -> landed = [issue_data]).
Proof.
  unfold _append_to_csv. eexists. split; [reflexivity|]. csimpl.
  split_and!; [done|done|].
  destruct (csv_append E (appends w) issue_data) as [|e|e] eqn:Hout.
  - exists [issue_data]. done.
  - exists []. split_and!; [done|by constructor|].
    intros Hno. by destruct (Hno _ _ _ Hout).
  - exists [issue_data]. done.
Qed.

Lemma export_issues_run (details : gmap string json) (kept : list json) :
  Forall (fun issue => exists d, issue = JObj d) kept ->
  forall w, exists w',
    export_issues E (JObj details) kept w = (w', Ok tt)
    /\ exported E (issue_row (JObj details) <$> kept) w w'.
Proof.
  induction 1 as [|issue kept [d ->] _ IH]; intros w.
  - exists w. split; [done|]. by apply exported_nil.
  - cbn [export_issues].
    destruct (make_issue_data_obj details d) as [row Hrow].
    assert (Hir : issue_row (JObj details) (JObj d) = JObj row)
      by (unfold issue_row; by rewrite Hrow).
    rewrite fmap_cons, Hir, Hrow.
    erewrite bind_ok by (unfold lift; reflexivity).
    destruct (_append_to_csv_exported (JObj row) w)
      as (w1 & Hw1 & Ht1 & Ha1 & landed & Hc1 & Hs1 & Hall1).
    erewrite bind_ok by exact Hw1.
    erewrite bind_ok by (unfold increment_total; reflexivity).
    match goal with |- context [export_issues _ _ _ ?w2] =>
      destruct (IH w2) as (w' & Hw' & Hexp) end.
    exists w'. split; [done|].
    change (exported E ([JObj row] ++ (issue_row (JObj details) <$> kept)) w w').
    eapply exported_app; [|exact Hexp].
    unfold exported. csimpl. split_and!; [lia|lia|].
    exists landed. done.
Qed.

Lemma relevant_obj issue : relevant issue = true -> exists d, issue = JObj d.
Proof. destruct issue; try discriminate. eauto. Qed.

Lemma attach_obj issue d : issue = JObj d -> exists d', attach issue = JObj d'.
Proof.
  intros ->. unfold attach.
  destruct (concatenated_tags (JObj d)) as [[s|]|]; csimpl; eauto.
Qed.

Lemma filter_fresh_objects issues kept :
  filter_fresh issues = Ok kept ->
  Forall (fun issue => exists d, issue = JObj d) kept.
Proof.
  intros (elems & _ & ->)%filter_fresh_ok.
  apply Forall_fmap, Forall_forall. intros issue Hin. csimpl.
  apply list_elem_of_In, filter_In in Hin as [_ [d ->]%relevant_obj].
  by eapply attach_obj.
Qed.

Lemma report_rows_length report_id :
  length (report_rows E report_id) = relevant_count E report_id.
Proof.
  unfold report_rows, relevant_count, report_issues, reached.
  destruct (details_of E report_id) as [details|]; [|done].
  destruct (truthy details); [|done].
  destruct (issues_of E report_id) as [issues|]; [|done].
  destruct (truthy issues); [|done].
  destruct (filter_fresh issues) as [kept|] eqn:Hf; [|done].
  apply filter_fresh_ok in Hf as (elems & -> & ->).
  by rewrite !length_fmap.
Qed.

(** **** One report *)

(** The body of the [try] either gets through, having exported the rows of
    the report, or raises before anything was exported. *)
Lemma process_report_run report_id w :
  (exists w', process_report E report_id w = (w', Ok tt)
     /\ exported E (report_rows E report_id) w w')
  \/ (exists w' e, process_report E report_id w = (w', Raise e)
        /\ quiet w w' /\ reached E report_id = None).
Proof.
  unfold process_report, report_rows, reached.
  destruct (get_fix_report_details_run report_id w) as (w1 & Hd & Hq1).
  destruct (details_of E report_id) as [details|e] eqn:Hdetails.
  2:{ right. exists w1, e. by erewrite bind_raise by exact Hd. }
  erewrite bind_ok by exact Hd.
  destruct (truthy details) eqn:Htd; csimpl.
  2:{ left. exists w1. split; [done|]. by apply exported_nil. }
  destruct (get_issues_for_fix_report_run report_id w1) as (w2 & Hi & Hq2).
  pose proof (quiet_trans _ _ _ Hq1 Hq2) as Hq.
  destruct (issues_of E report_id) as [issues|e] eqn:Hissues.
  2:{ right. exists w2, e. by erewrite bind_raise by exact Hi. }
  erewrite bind_ok by exact Hi.
  destruct (truthy issues) eqn:Hti; csimpl.
  2:{ left. exists w2. split; [done|]. by apply exported_nil. }
  destruct (filter_fresh issues) as [kept|e] eqn:Hf.
  2:{ right. exists w2, e. by erewrite bind_raise by (unfold lift; reflexivity). }
  erewrite bind_ok by (unfold lift; reflexivity).
  destruct (details_of_shape _ _ Hdetails) as [->|[d ->]]; [discriminate|].
  destruct (export_issues_run d kept (filter_fresh_objects _ _ Hf) w2)
    as (w' & Hrun & Hexp).
  left. exists w'. split; [done|].
  destruct Hexp as (Ht & Ha & landed & Hc & Hs & Hall).
  destruct Hq as (Hqc & Hqa & Hqt).
  unfold exported. rewrite Ht, Ha, Hqt, Hqa. split_and!; [done|done|].
  exists landed. by rewrite Hc, Hqc.
Qed.

(** **** The loop over the reports *)

Lemma process_reports_run report_ids : forall w,
  exists w', process_reports E report_ids w = (w', Ok tt)
    /\ exported E (concat (report_rows E <$> report_ids)) w w'.
Proof.
  induction report_ids as [|report_id rest IH]; intros w.
  - exists w. split; [done|]. by apply exported_nil.
  - cbn [process_reports].
    assert (exists w1, try_except (process_report E report_id)
                         (fun e => logging (ProcessingFailed report_id e)) w
                       = (w1, Ok tt)
              /\ exported E (report_rows E report_id) w w1) as (w1 & Hw1 & Hexp1).
    { unfold try_except.
      destruct (process_report_run report_id w)
        as [(w1 & -> & Hexp)|(w1 & e & -> & Hq & Hnone)]; [eauto|].
      eexists. split; [reflexivity|].
      unfold report_rows. rewrite Hnone. apply exported_nil.
      destruct Hq as (?&?&?). by split_and!. }
    erewrite bind_ok by exact Hw1.
    destruct (IH w1) as (w' & Hw' & Hexp).
    exists w'. split; [done|]. csimpl. by eapply exported_app.
Qed.

Lemma sum_relevant_counts report_ids :
  length (concat (report_rows E <$> report_ids))
  = sum_list (relevant_count E <$> report_ids).
Proof.
  induction report_ids as [|report_id rest IH]; csimpl; [done|].
  by rewrite length_app, report_rows_length, IH.
Qed.

(** **** The Lister *)

Lemma silent_trans w1 w2 w3 : silent w1 w2 -> silent w2 w3 -> silent w1 w3.
Proof. unfold silent. intros (?&?&?&?&?) (?&?&?&?&?). split_and!; congruence. Qed.

Lemma consider_report_silent cutoff_date report filtered w w' r :
  consider_report E cutoff_date report filtered w = (w', r) -> silent w w'.
Proof.
  unfold consider_report, try_except, parse_created_on, datetime_ge. run_monad.
  intros H. repeat (case_match; run_monad; simplify_eq); by simplify_eq.
Qed.

Lemma consider_reports_silent cutoff_date fix_reports : forall filtered w w' r,
  consider_reports E cutoff_date fix_reports filtered w = (w', r) -> silent w w'.
Proof.
  induction fix_reports as [|report rest IH]; intros filtered w w' r H.
  - by inversion H.
  - cbn [consider_reports] in H. unfold bind in H.
    destruct (consider_report E cutoff_date report filtered w) as [w1 [acc|e]] eqn:H1;
      apply consider_report_silent in H1.
    + eapply silent_trans; [exact H1|]. by eapply IH.
    + by inversion H; subst.
Qed.

(** A listed dictionary is judged by [listed] and never interrupts the loop. *)
Lemma consider_report_run cutoff_date offset (report : gmap string json) filtered w :
  utcoffset cutoff_date = Some offset ->
  exists w',
    consider_report E cutoff_date (JObj report) filtered w
    = (w', Ok (if listed E (wall cutoff_date - offset) (JObj report)
               then filtered ++ [report_id_of (JObj report)]
               else filtered))
    /\ silent w w'.
Proof.
  intros Hoff.
  unfold consider_report, try_except, parse_created_on, datetime_ge, listed,
    created_instant, instant, report_id_of.
  run_monad. rewrite Hoff.
  destruct (truthy (default JNull (report !! "id")));
    (destruct (report !! "createdOn") as [[| | |s| |]|]; csimpl;
     try destruct (negb (String.eqb s EmptyString)); csimpl;
     try (destruct (fromisoformat E (replace_Z s)) as [[t [o|]]|]; csimpl));
    repeat (case_match; run_monad; simplify_eq);
    eexists; (split; [reflexivity|done]).
Qed.

Lemma consider_reports_run cutoff_date offset fix_reports :
  utcoffset cutoff_date = Some offset ->
  Forall (fun report => exists d, report = JObj d) fix_reports ->
  forall filtered w, exists w',
    consider_reports E cutoff_date fix_reports filtered w
    = (w', Ok (filtered
               ++ (report_id_of
                     <$> List.filter (listed E (wall cutoff_date - offset))
                           fix_reports)))
    /\ silent w w'.
Proof.
  intros Hoff. induction 1 as [|report rest [d ->] _ IH]; intros filtered w.
  - exists w. csimpl. by rewrite app_nil_r.
  - cbn [consider_reports List.filter].
    destruct (consider_report_run cutoff_date offset d filtered w Hoff)
      as (w1 & H1 & Hs1).
    erewrite bind_ok by exact H1.
    match goal with |- context [consider_reports _ _ _ ?acc w1] =>
      destruct (IH acc w1) as (w' & Hw' & Hs') end.
    exists w'. split; [|by eapply silent_trans].
    rewrite Hw'. destruct (listed _ _ _); csimpl; [|done].
    by rewrite <- app_assoc.
Qed.

Lemma get_active_reports_quiet self w w' r :
  get_active_reports E self w = (w', r) -> quiet w w'.
Proof.
  unfold get_active_reports. run_monad. unfold datetime_now_utc.
  intros H.
  repeat (case_match; run_monad; simplify_eq);
    try match goal with
        | H : consider_reports _ _ _ _ _ = _ |- _ =>
            apply consider_reports_silent in H; destruct H as (?&?&?&?&?)
        end;
    simplify_eq; csimpl in *; by split_and!.
Qed.

(** **** The whole run *)

Lemma process_all_reports_run self w w' n :
  process_all_reports E self w = (w', Ok n) ->
  exists report_ids,
    (get_active_reports E self w).2 = Ok report_ids
    /\ n = length (concat (report_rows E <$> report_ids))
    /\ appends w' = (appends w + n)%nat
    /\ exists landed,
         csv w' = csv w ++ landed
         /\ sublist landed (concat (report_rows E <$> report_ids))
         /\ ((forall k row e, csv_append E k row <> NotWritten e)
             -> landed = concat (report_rows E <$> report_ids)).
Proof.
  unfold process_all_reports, bind at 1.
  destruct (get_active_reports E self w) as [w1 [report_ids|e]] eqn:Hlist;
    [|discriminate].
  apply get_active_reports_quiet in Hlist as (Hc1 & Ha1 & Ht1).
  intros H. exists report_ids. split; [done|].
  destruct report_ids as [|report_id rest].
  - unfold bind, logging, ret in H. inversion H; subst; csimpl.
    rewrite Nat.add_0_r. split_and!; [done|done|].
    exists []. rewrite app_nil_r. split_and!; [done|constructor|done].
  - erewrite bind_ok in H by (unfold reset_total; reflexivity).
    unfold bind in H.
    match type of H with context [process_reports E ?ids ?w2] =>
      destruct (process_reports_run ids w2)
        as (w3 & Hrun & Ht & Ha & landed & Hc & Hs & Hall) end.
    rewrite Hrun in H. unfold read_total in H. inversion H; subst; clear H. csimpl in *.
    split_and!; [done|lia|]. exists landed. by rewrite Hc, Hc1.
Qed.

End WorldFacts.

(** * The rows of a report, issue by issue *)

Section RowFacts.

Variable E : env.

(** Details that are not [None] are the record of the two names and the id. *)
Lemma details_of_cases fix_report_id details :
  details_of E fix_report_id = Ok details ->
  details = JNull
  \/ exists project_name repo_name,
       details = JObj (<["project_name" := project_name]>
                       (<["repo_name" := repo_name]>
                        {["fix_report_id" := fix_report_id]})).
Proof.
  unfold details_of, get_fix_report_details. run_monad.
  repeat (case_match; run_monad; simplify_eq); intros; simplify_eq; eauto.
Qed.

Lemma details_of_record fix_report_id details :
  details_of E fix_report_id = Ok details -> truthy details = true ->
  exists project_name repo_name,
    details = JObj (<["project_name" := project_name]>
                    (<["repo_name" := repo_name]>
                     {["fix_report_id" := fix_report_id]})).
Proof.
  intros [->|Hrecord]%details_of_cases Htrue; [discriminate|done].
Qed.

(** The row of a kept issue, in terms of the issue as the API gave it. *)
Lemma make_issue_data_attach (details : gmap string json) issue :
  relevant issue = true ->
  (exists r, concatenated_tags issue = Ok r) ->
  make_issue_data (JObj details) (attach issue)
  = Ok (export_row (JObj details) issue).
Proof.
  intros Hrel [r Hc]. pose proof (concatenated_tags_inv _ _ Hc) as Hr.
  rewrite Hrel in Hr. subst r. unfold attach. rewrite Hc.
  destruct (relevant_obj _ Hrel) as [d ->].
  unfold make_issue_data, vendor_instance_id, export_row, get_or.
  cbn [set_item py_get rbind].
  rewrite lookup_insert_eq.
  rewrite !(lookup_insert_ne d CONCATENATED_TAGS) by done.
  by destruct (d !! "vendorInstanceId") as [[]|].
Qed.

Lemma filter_fresh_verdicts issues kept :
  filter_fresh issues = Ok kept ->
  exists elems, py_iter issues = Ok elems
    /\ Forall (fun issue => exists r, concatenated_tags issue = Ok r) elems.
Proof.
  unfold filter_fresh. intros H.
  apply rbind_ok in H as (elems & Hiter & H). exists elems. split; [done|].
  apply rbind_ok in H as (out & Hout & _).
  destruct (filter_irrelevant_issues elems (seq 0 (length elems))) as [h' r] eqn:Hrun.
  csimpl in *. subst r. unfold filter_irrelevant_issues in Hrun.
  destruct (filter_loop_ok elems _ elems [] h' out (stamped_refl _) Hrun)
    as (_ & Hall & _).
  apply Forall_lookup. intros i issue Hi.
  rewrite Forall_forall in Hall.
  destruct (Hall i) as (issue' & r & Hi' & Hc).
  { apply elem_of_seq. apply lookup_lt_Some in Hi. lia. }
  exists r. congruence.
Qed.

(** The rows of a report are export rows. *)
Lemma report_rows_export report_id :
  report_rows E report_id
  = match reached E report_id with
    | Some (details, _) =>
        export_row details <$> List.filter relevant (report_issues E report_id)
    | None => []
    end.
Proof.
  unfold report_rows, reached, report_issues.
  destruct (details_of E report_id) as [details|] eqn:Hd; [|done].
  destruct (truthy details) eqn:Ht; [|done].
  destruct (issues_of E report_id) as [issues|]; [|done].
  destruct (truthy issues); [|done].
  destruct (filter_fresh issues) as [kept|] eqn:Hf; [|done].
  destruct (filter_fresh_verdicts _ _ Hf) as (elems & Hiter & Hverdicts).
  destruct (filter_fresh_ok _ _ Hf) as (elems' & Hiter' & ->).
  assert (elems' = elems) as -> by congruence. rewrite Hiter.
  destruct (details_of_record _ _ Hd Ht) as (pn & rn & ->).
  rewrite <- list_fmap_compose. apply Forall_fmap_ext_1, Forall_forall.
  intros issue Hin. csimpl. unfold issue_row.
  apply list_elem_of_In, filter_In in Hin as [Hin%list_elem_of_In Hrel].
  rewrite Forall_forall in Hverdicts.
  by rewrite (make_issue_data_attach _ _ Hrel (Hverdicts _ Hin)).
Qed.

End RowFacts.

(** * The relevance filter: ordering, idempotence and frame *)

Lemma sublist_List_filter {A} (f : A -> bool) (xs : list A) :
  sublist (List.filter f xs) xs.
Proof.
  induction xs as [|x xs IH]; csimpl; [constructor|].
  destruct (f x); by constructor.
Qed.

Lemma attach_cases issue :
  attach issue = issue
  \/ exists d s, issue = JObj d
       /\ concatenated_tags issue = Ok (Some s)
       /\ attach issue = JObj (<[CONCATENATED_TAGS := JStr s]> d).
Proof.
  unfold attach. destruct (concatenated_tags issue) as [[s|]|] eqn:Hc; eauto.
  destruct issue; eauto. right. eauto.
Qed.

(** C1.  [filter_irrelevant_issues] returns for every sequence of issues of
    the data model's shape, and whenever it returns, for any input whatever,
    what it returns is the input sequence restricted to the relevant issues
    (those with at least one tag whose value is non-empty), in the input's
    order: an issue is in the result if and only if it is in the input and
    relevant; and every kept issue carries under [concatenated_tags] its
    non-empty tag values, in their original order, joined by [" | "]. *)
Theorem filter_irrelevant_issues_relevance (h : list json) (issues : list nat) :
  (Forall (fun l => at_loc issue_typed h l = true) issues ->
   exists h' out, filter_irrelevant_issues h issues = (h', Ok out))
  /\ (forall h' out,
        filter_irrelevant_issues h issues = (h', Ok out) ->
        out = List.filter (at_loc relevant h) issues
        /\ (forall l, l ∈ out <-> l ∈ issues /\ at_loc relevant h l = true)
        /\ (forall l issue,
              l ∈ issues -> h !! l = Some issue -> relevant issue = true ->
              h' !! l
              = Some (set_item issue CONCATENATED_TAGS
                        (JStr (join SEPARATOR (nonempty_tag_values issue)))))).
Proof.
  unfold filter_irrelevant_issues. split.
  { intros Hty. by apply (filter_loop_total h issues h []); [apply stamped_refl|]. }
  intros h' out Hrun.
  destruct (filter_loop_ok h issues h [] h' out (stamped_refl h) Hrun)
    as (-> & Hall & Hstore).
  assert (Hsame : List.filter (keeps h) issues
                  = List.filter (at_loc relevant h) issues).
  { apply filter_ext_in. intros l Hin%list_elem_of_In.
    rewrite Forall_forall in Hall.
    destruct (Hall l Hin) as (issue & r & Hl & Hc). by eapply keeps_relevant. }
  csimpl. rewrite Hsame. split_and!; [done| |].
  - intros l. by rewrite !list_elem_of_In, filter_In.
  - intros l issue Hin Hl Hrel. rewrite Hstore, Hsame.
    rewrite bool_decide_eq_true_2.
    2:{ apply list_elem_of_In, filter_In. split; [by apply list_elem_of_In|].
        unfold at_loc. by rewrite Hl. }
    rewrite Hl. csimpl. f_equal.
    rewrite Forall_forall in Hall.
    destruct (Hall l Hin) as (issue' & r & Hl' & Hc).
    assert (issue' = issue) as -> by congruence.
    pose proof (concatenated_tags_inv _ _ Hc) as Hr. rewrite Hrel in Hr.
    unfold attach. by rewrite Hc, Hr.
Qed.

Lemma filter_irrelevant_issues_relevance_witness :
  (exists h' out,
     filter_irrelevant_issues demo_store [0; 1; 2; 0]%nat = (h', Ok out))
  /\ [0; 2; 0]%nat = List.filter (at_loc relevant demo_store) [0; 1; 2; 0]%nat
  /\ (forall l,
        l ∈ [0; 2; 0]%nat
        <-> l ∈ [0; 1; 2; 0]%nat /\ at_loc relevant demo_store l = true)
  /\ (forall l issue,
        l ∈ [0; 1; 2; 0]%nat -> demo_store !! l = Some issue ->
        relevant issue = true ->
        demo_store_filtered !! l
        = Some (set_item issue CONCATENATED_TAGS
                  (JStr (join SEPARATOR (nonempty_tag_values issue))))).
Proof.
  split.
  - apply (proj1 (filter_irrelevant_issues_relevance demo_store [0; 1; 2; 0]%nat)).
    repeat constructor.
  - apply (proj2 (filter_irrelevant_issues_relevance demo_store [0; 1; 2; 0]%nat)).
    vm_compute. reflexivity.
Defined.

(** The worked run: issues 0 and 2 are kept, issue 1 is dropped, and the
    first joined string skips the empty and the absent value. *)
Example filter_irrelevant_issues_demo :
  filter_irrelevant_issues demo_store [0; 1; 2; 0]%nat
  = (demo_store_filtered, Ok [0; 2; 0]%nat).
Proof. vm_compute. reflexivity. Qed.

(** C8.  Idempotence: the filter returns for every sequence of issues of the
    data model's shape, and whenever it returns, running it again on what it
    returned, in the store the first run left, returns the same sequence and
    leaves the same store, hence the same [concatenated_tags] strings. *)
Theorem filter_irrelevant_issues_idempotent (h : list json) (issues : list nat) :
  (Forall (fun l => at_loc issue_typed h l = true) issues ->
   exists h1 out, filter_irrelevant_issues h issues = (h1, Ok out))
  /\ (forall h1 out,
        filter_irrelevant_issues h issues = (h1, Ok out) ->
        filter_irrelevant_issues h1 out = (h1, Ok out)).
Proof.
  unfold filter_irrelevant_issues. split.
  - intros Hty. by apply (filter_loop_total h issues h []); [apply stamped_refl|].
  - intros h1 out. apply filter_loop_again.
Qed.

Lemma filter_irrelevant_issues_idempotent_witness :
  (exists h1 out,
     filter_irrelevant_issues demo_store [2; 1; 0]%nat = (h1, Ok out))
  /\ filter_irrelevant_issues demo_store_filtered [2; 0]%nat
     = (demo_store_filtered, Ok [2; 0]%nat).
Proof.
  split.
  - apply (proj1 (filter_irrelevant_issues_idempotent demo_store [2; 1; 0]%nat)).
    repeat constructor.
  - apply (proj2 (filter_irrelevant_issues_idempotent demo_store [2; 1; 0]%nat)).
    vm_compute. reflexivity.
Defined.

(** C9.  The filter mutates its input and nothing but the one key.  After any
    run, finished or interrupted by an exception, the store has the same
    objects; each object is either untouched or is the dictionary it was with
    [concatenated_tags] set, so every other field of every issue is unchanged;
    and when the run returns, the returned references are a sub-sequence of
    the input references, each returned issue is the input dictionary with
    [concatenated_tags] set, and every issue not returned is untouched. *)
Theorem filter_irrelevant_issues_frame
    (h : list json) (issues : list nat) (h' : list json) (r : result (list nat)) :
  filter_irrelevant_issues h issues = (h', r) ->
  length h' = length h
  /\ (forall l issue', h' !! l = Some issue' ->
        exists issue, h !! l = Some issue
          /\ (issue' = issue
              \/ exists d s, issue = JObj d
                   /\ issue' = JObj (<[CONCATENATED_TAGS := JStr s]> d)))
  /\ (forall l d', h' !! l = Some (JObj d') ->
        exists d, h !! l = Some (JObj d)
          /\ forall key, key <> CONCATENATED_TAGS -> d' !! key = d !! key)
  /\ (forall out, r = Ok out ->
        sublist out issues
        /\ (forall l, l ∈ out ->
              exists d s, h !! l = Some (JObj d)
                /\ h' !! l = Some (JObj (<[CONCATENATED_TAGS := JStr s]> d)))
        /\ (forall l, l ∉ out -> h' !! l = h !! l)).
Proof.
  unfold filter_irrelevant_issues. intros Hrun.
  destruct (filter_loop_stamped h issues h [] h' r (stamped_refl h) Hrun)
    as [Hst Hlen].
  assert (Hobj : forall l issue', h' !! l = Some issue' ->
            exists issue, h !! l = Some issue
              /\ (issue' = issue
                  \/ exists d s, issue = JObj d
                       /\ issue' = JObj (<[CONCATENATED_TAGS := JStr s]> d))).
  { intros l issue' Hl.
    destruct (stamped_lookup _ _ _ _ Hst Hl) as (issue & H0 & [->| ->]);
      exists issue; (split; [done|]); [by left|].
    destruct (attach_cases issue) as [->|(d & s & -> & _ & ->)]; eauto. }
  split_and!; [done|done| |].
  - intros l d' Hl. destruct (Hobj l _ Hl) as (issue & H0 & [<-|(d & s & -> & Heq)]).
    + eauto.
    + exists d. split; [done|]. intros key Hkey. inversion Heq; subst d'.
      by rewrite lookup_insert_ne.
  - intros out ->.
    destruct (filter_loop_ok h issues h [] h' out (stamped_refl h) Hrun)
      as (-> & _ & Hstore). csimpl.
    split_and!; [apply sublist_List_filter| |].
    + intros l Hin. specialize (Hstore l).
      rewrite bool_decide_eq_true_2 in Hstore by done.
      apply list_elem_of_In, filter_In in Hin as [_ Hkeep].
      unfold keeps, at_loc in Hkeep.
      destruct (h !! l) as [issue|]; [|discriminate]. csimpl in Hstore.
      destruct (attach_cases issue) as [_|(d & s & -> & _ & Hatt)].
      * unfold attach in Hstore.
        destruct (concatenated_tags issue) as [[s|]|] eqn:Hc; try discriminate.
        destruct issue; try discriminate. eauto.
      * rewrite Hatt in Hstore. eauto.
    + intros l Hout. rewrite Hstore. by rewrite bool_decide_eq_false_2.
Qed.

Lemma filter_irrelevant_issues_frame_witness :
  length demo_store_filtered = length demo_store
  /\ (forall l issue', demo_store_filtered !! l = Some issue' ->
        exists issue, demo_store !! l = Some issue
          /\ (issue' = issue
              \/ exists d s, issue = JObj d
                   /\ issue' = JObj (<[CONCATENATED_TAGS := JStr s]> d)))
  /\ (forall l d', demo_store_filtered !! l = Some (JObj d') ->
        exists d, demo_store !! l = Some (JObj d)
          /\ forall key, key <> CONCATENATED_TAGS -> d' !! key = d !! key)
  /\ (forall out, Ok [0; 2; 0]%nat = Ok out ->
        sublist out [0; 1; 2; 0]%nat
        /\ (forall l, l ∈ out ->
              exists d s, demo_store !! l = Some (JObj d)
                /\ demo_store_filtered !! l
                   = Some (JObj (<[CONCATENATED_TAGS := JStr s]> d)))
        /\ (forall l, l ∉ out -> demo_store_filtered !! l = demo_store !! l)).
Proof.
  apply (filter_irrelevant_issues_frame demo_store [0; 1; 2; 0]%nat).
  vm_compute. reflexivity.
Defined.

(** * The Lister *)

Lemma truthy_obj_lookup (d : gmap string json) key v :
  d !! key = Some v -> truthy (JObj d) = true.
Proof.
  intros H. csimpl. rewrite bool_decide_eq_false_2; [done|].
  intros ->. by rewrite lookup_empty in H.
Qed.

(** C2 (amended).  For a listing response that is a record whose [fixReport]
    is a list of records, and a window of [days] days that the clock can be
    moved back by, [get_active_reports] reads the clock once, takes the cutoff
    to be that reading minus [days] days, and returns, in the order of the
    response, exactly the ids of the reports that have a true (non-empty) id
    and whose [createdOn] is a non-empty string that parses to a zone-aware
    timestamp at or after the cutoff. *)
Theorem get_active_reports_window (E : env) (self : extractor) (w : state)
    (body : gmap string json) (fix_reports : list json) (days : Z) :
  api E ActiveReports = Some (JObj body) ->
  body !! "fixReport" = Some (JArr fix_reports) ->
  Forall (fun report => exists d, report = JObj d) fix_reports ->
  days_of_data self = JNum days ->
  (Z.abs days <= MAX_DELTA_DAYS)%Z ->
  (MIN_WALL <= utcnow E (clock_reads w) - days * MICROSECONDS_PER_DAY
   <= MAX_WALL)%Z ->
  exists w',
    get_active_reports E self w
    = (w', Ok (report_id_of
                 <$> List.filter
                       (listed E (utcnow E (clock_reads w)
                                  - days * MICROSECONDS_PER_DAY)%Z)
                       fix_reports))
    /\ clock_reads w' = S (clock_reads w)
    /\ requests w' = requests w ++ [ActiveReports]
    /\ quiet w w'.
Proof.
  intros Hapi Hfix Hobj Hdays Hbound [Hmin Hmax].
  unfold get_active_reports.
  erewrite bind_ok by (unfold _make_request; rewrite Hapi; reflexivity).
  change (default JNull (Some (JObj body))) with (JObj body).
  rewrite (truthy_obj_lookup _ _ _ Hfix). cbn [negb].
  erewrite bind_ok by (unfold lift; cbn [py_get]; rewrite Hfix; reflexivity).
  erewrite bind_ok by (unfold datetime_now_utc; reflexivity).
  erewrite bind_ok.
  2:{ unfold lift. rewrite Hdays. cbn [timedelta_days].
      rewrite (proj2 (Z.leb_le _ _) Hbound). reflexivity. }
  erewrite bind_ok.
  2:{ unfold lift, datetime_sub. cbn [wall utcoffset clock_reads].
      rewrite (proj2 (Z.leb_le _ _) Hmin), (proj2 (Z.leb_le _ _) Hmax).
      reflexivity. }
  erewrite bind_ok by (unfold lift; reflexivity).
  cbn [log csv requests clock_reads appends total_irrelevant_issues].
  match goal with |- context [bind (consider_reports E ?c fix_reports []) _ ?w1] =>
    destruct (consider_reports_run E c 0%Z fix_reports eq_refl Hobj [] w1)
      as (w' & Hloop & Hs) end.
  erewrite bind_ok by exact Hloop.
  erewrite bind_ok by (unfold lift; reflexivity).
  exists w'. cbn [wall] in *. rewrite Z.sub_0_r. split; [reflexivity|].
  destruct Hs as (Hc & Hr & Hk & Ha & Ht). cbn in Hc, Hr, Hk, Ha, Ht.
  unfold quiet. by split_and!.
Qed.

Lemma get_active_reports_window_witness :
  exists w',
    get_active_reports Demo.E Demo.self initial_state
    = (w', Ok (report_id_of
                 <$> List.filter
                       (listed Demo.E
                          (utcnow Demo.E (clock_reads initial_state)
                           - 7 * MICROSECONDS_PER_DAY)%Z)
                       Demo.reports))
    /\ clock_reads w' = S (clock_reads initial_state)
    /\ requests w' = requests initial_state ++ [ActiveReports]
    /\ quiet initial_state w'.
Proof.
  apply (get_active_reports_window Demo.E Demo.self initial_state
           Demo.listing_body Demo.reports 7).
  - reflexivity.
  - reflexivity.
  - repeat constructor; eexists; reflexivity.
  - reflexivity.
  - unfold MAX_DELTA_DAYS. lia.
  - cbn. unfold Demo.NOW, MICROSECONDS_PER_DAY, MIN_WALL, MAX_WALL. lia.
Defined.

(** The worked listing: the old report, the unparseable one, the one with an
    empty id and the one without a zone are left out; two of them are logged. *)
Example get_active_reports_demo :
  get_active_reports Demo.E Demo.self initial_state
  = (State [DateParseFailed (JStr "r5") (ValueError "Invalid isoformat string");
            DateParseFailed (JStr "r7") TypeError]
       [] [ActiveReports] 1 0 0,
     Ok [JStr "r1"; JStr "r3"; JStr "r4"]).
Proof. vm_compute. reflexivity. Qed.

(** C2 as stated fails: in the worked listing five reports have a [createdOn]
    that parses to a time at or after the cutoff, among them one whose id is
    the empty string and one whose timestamp has no zone, and the Lister
    returns three ids. *)
Lemma get_active_reports_not_all_parsed :
  (get_active_reports Demo.E Demo.self initial_state).2
  = Ok [JStr "r1"; JStr "r3"; JStr "r4"]
  /\ report_id_of
       <$> List.filter (parses_at_or_after Demo.E Demo.CUTOFF) Demo.reports
     = [JStr "r1"; JStr "r3"; JStr "r4"; JStr EmptyString; JStr "r7"].
Proof. vm_compute. done. Qed.

(** A failed listing request yields no report and no exception. *)
Lemma get_active_reports_failed (E : env) (self : extractor) (w : state) :
  api E ActiveReports = None ->
  get_active_reports E self w
  = (State (log w ++ [RequestFailed ActiveReports] ++ [ActiveReportsFailed])
       (csv w) (requests w ++ [ActiveReports]) (clock_reads w) (appends w)
       (total_irrelevant_issues w),
     Ok []).
Proof.
  intros Hapi. unfold get_active_reports, bind, _make_request, logging, ret.
  rewrite Hapi. csimpl. by rewrite <- app_assoc.
Qed.

(** * The pipeline *)

(** C3 (amended).  After a run of [process_all_reports] that returns, the
    value returned is the number of issues satisfying the relevance
    predicate, summed over the report ids returned by the Lister that reach
    the exporter (details fetched as a record, issues fetched, no exception);
    a report that is skipped or interrupted counts for nothing.  The rows
    appended to the file are among the rows of those reports, in order, and
    are all of them, as many as the value returned, when no append fails to
    write. *)
Theorem process_all_reports_total (E : env) (self : extractor) (w w' : state) (n : nat) :
  process_all_reports E self w = (w', Ok n) ->
  exists report_ids,
    (get_active_reports E self w).2 = Ok report_ids
    /\ n = sum_list (relevant_count E <$> report_ids)
    /\ exists landed,
         csv w' = csv w ++ landed
         /\ sublist landed (concat (report_rows E <$> report_ids))
         /\ (length landed <= n)%nat
         /\ ((forall k row e, csv_append E k row <> NotWritten e) ->
             landed = concat (report_rows E <$> report_ids)
             /\ length landed = n).
Proof.
  intros (report_ids & Hids & Hn & _ & landed & Hcsv & Hsub & Hall)%process_all_reports_run.
  exists report_ids. rewrite <- sum_relevant_counts. split_and!; [done|done|].
  exists landed. split_and!; [done|done| |].
  - rewrite Hn. by apply sublist_length.
  - intros Hno. rewrite (Hall Hno). by rewrite Hn.
Qed.

Lemma process_all_reports_total_witness :
  exists report_ids,
    (get_active_reports Demo.E Demo.self initial_state).2 = Ok report_ids
    /\ 2%nat = sum_list (relevant_count Demo.E <$> report_ids)
    /\ exists landed,
         csv (State [DateParseFailed (JStr "r5") (ValueError "Invalid isoformat string");
                     DateParseFailed (JStr "r7") TypeError;
                     NoFixReportData (JStr "r3");
                     ProcessingFailed (JStr "r4") AttributeError]
                Demo.rows
                [ActiveReports; FixReport (JStr "r1"); Issues (JStr "r1");
                 FixReport (JStr "r3"); FixReport (JStr "r4")]
                1 2 2)
         = csv initial_state ++ landed
         /\ sublist landed (concat (report_rows Demo.E <$> report_ids))
         /\ (length landed <= 2)%nat
         /\ ((forall k row e, csv_append Demo.E k row <> NotWritten e) ->
             landed = concat (report_rows Demo.E <$> report_ids)
             /\ length landed = 2%nat).
Proof.
  apply (process_all_reports_total Demo.E Demo.self initial_state).
  vm_compute. reflexivity.
Defined.

(** The worked run: two rows from [r1], nothing from [r3] (no details) and
    nothing from [r4] (interrupted). *)
Example process_all_reports_demo :
  process_all_reports Demo.E Demo.self initial_state
  = (State [DateParseFailed (JStr "r5") (ValueError "Invalid isoformat string");
            DateParseFailed (JStr "r7") TypeError;
            NoFixReportData (JStr "r3");
            ProcessingFailed (JStr "r4") AttributeError]
       Demo.rows
       [ActiveReports; FixReport (JStr "r1"); Issues (JStr "r1");
        FixReport (JStr "r3"); FixReport (JStr "r4")]
       1 2 2,
     Ok 2%nat).
Proof. vm_compute. reflexivity. Qed.

(** C3 as stated fails.  The Lister returns [r1], [r3] and [r4]; their issue
    lists hold two, one and one relevant issues; the run returns 2 and writes
    2 rows, because [r3] has no details and [r4] is interrupted.  And on a
    full disk the same run returns 2 and writes no row at all. *)
Lemma process_all_reports_not_all_issues :
  (get_active_reports Demo.E Demo.self initial_state).2
  = Ok [JStr "r1"; JStr "r3"; JStr "r4"]
  /\ (fun report_id =>
        length (List.filter relevant (report_issues Demo.E report_id)))
       <$> [JStr "r1"; JStr "r3"; JStr "r4"]
     = [2; 1; 1]%nat
  /\ (process_all_reports Demo.E Demo.self initial_state).2 = Ok 2%nat
  /\ csv (process_all_reports Demo.E Demo.self initial_state).1 = Demo.rows
  /\ (process_all_reports Demo.E_full_disk Demo.self initial_state).2 = Ok 2%nat
  /\ csv (process_all_reports Demo.E_full_disk Demo.self initial_state).1 = [].
Proof. vm_compute. done. Qed.

(** * The exporter *)

(** The [vendorInstanceId] cell of the row built for an issue, read off the
    issue as the API gave it. *)
Lemma export_row_vendor (details issue : json) :
  exists cells,
    export_row details issue = JObj cells
    /\ cells !! "vendorInstanceId"
       = Some (match get_or issue "vendorInstanceId" JNull with
               | JNull => JStr "null"
               | value => value
               end).
Proof.
  unfold export_row. eexists. split; [reflexivity|].
  by rewrite lookup_insert_ne, lookup_insert_ne, lookup_insert_eq.
Qed.

(** C4 (amended).  Every row a report hands to the exporter is the row of one
    relevant issue of the report, the i-th row that of the i-th relevant
    issue; its [vendorInstanceId] cell is the string ["null"], which has four
    characters and so is not empty, when that issue has no [vendorInstanceId]
    or has [None] there, and is the issue's own value, as it is, otherwise.
    The same holds of the row [make_issue_data] builds for any details and
    any issue. *)
Theorem vendor_instance_id_sentinel :
  (forall details issue : gmap string json,
     exists row,
       make_issue_data (JObj details) (JObj issue) = Ok (JObj row)
       /\ row !! "vendorInstanceId"
          = Some (match issue !! "vendorInstanceId" with
                  | None | Some JNull => JStr "null"
                  | Some value => value
                  end))
  /\ String.length "null" = 4%nat
  /\ (forall (E : env) (report_id : json) (i : nat) (row : json),
        report_rows E report_id !! i = Some row ->
        exists (issue cells : gmap string json),
          List.filter relevant (report_issues E report_id) !! i
          = Some (JObj issue)
          /\ row = JObj cells
          /\ cells !! "vendorInstanceId"
             = Some (match issue !! "vendorInstanceId" with
                     | None | Some JNull => JStr "null"
                     | Some value => value
                     end)).
Proof.
  split_and!; [|reflexivity|].
  - intros details issue. unfold make_issue_data, vendor_instance_id. csimpl.
    eexists. split; [reflexivity|].
    rewrite lookup_insert_ne, lookup_insert_ne, lookup_insert_eq by done.
    by destruct (issue !! "vendorInstanceId") as [[]|].
  - intros E report_id i row. rewrite report_rows_export.
    destruct (reached E report_id) as [[details kept]|];
      [|by rewrite lookup_nil].
    rewrite list_lookup_fmap.
    destruct (List.filter relevant (report_issues E report_id) !! i)
      as [issue|] eqn:Hi; [|discriminate].
    intros [= <-].
    assert (Hrel : relevant issue = true).
    { apply list_elem_of_lookup_2, list_elem_of_In, filter_In in Hi.
      by destruct Hi. }
    destruct (relevant_obj _ Hrel) as [d ->].
    destruct (export_row_vendor details (JObj d)) as (cells & -> & Hcell).
    exists d, cells. split_and!; [done|done|].
    rewrite Hcell. cbn [get_or].
    by destruct (d !! "vendorInstanceId") as [[]|].
Qed.

Lemma vendor_instance_id_sentinel_witness :
  exists (issue cells : gmap string json),
    List.filter relevant (report_issues Demo.E (JStr "r1")) !! 1%nat
    = Some (JObj issue)
    /\ Demo.row (JStr "shop") (JStr "shop-api") (JStr "null") (JStr "noise")
         (JStr EmptyString)
       = JObj cells
    /\ cells !! "vendorInstanceId"
       = Some (match issue !! "vendorInstanceId" with
               | None | Some JNull => JStr "null"
               | Some value => value
               end).
Proof.
  apply (proj2 (proj2 vendor_instance_id_sentinel) Demo.E (JStr "r1") 1%nat).
  vm_compute. reflexivity.
Defined.

(** C4 as stated fails on the length, in the worked run: the third issue of
    report [r1] is relevant and has no [vendorInstanceId]; its row is the
    second row the run writes to the file, and the cell written there is
    ["null"], a string of four characters, not of three. *)
Lemma vendor_instance_id_null_has_four_characters :
  List.filter relevant (report_issues Demo.E (JStr "r1")) !! 1%nat
  = Some demo_issue_c
  /\ get_or demo_issue_c "vendorInstanceId" JNull = JNull
  /\ exists (cells : gmap string json) (cell : string),
       csv (process_all_reports Demo.E Demo.self initial_state).1 !! 1%nat
       = Some (JObj cells)
       /\ cells !! "vendorInstanceId" = Some (JStr cell)
       /\ cell = "null"
       /\ String.length cell = 4%nat
       /\ Nat.eqb (String.length cell) 3 = false.
Proof.
  split_and!; [vm_compute; reflexivity|vm_compute; reflexivity|].
  eexists _, "null". split_and!; [vm_compute; reflexivity| |done|done|done].
  vm_compute. reflexivity.
Qed.

(** * The Detail Fetcher *)

(** Where [get_fix_report_details] gives [None]: the fetch fails, the
    response is false, or its [fixReport] list is absent or empty. *)
Lemma get_fix_report_details_none (E : env) (fix_report_id : json) (w : state) :
  (api E (FixReport fix_report_id) = None ->
   (get_fix_report_details E fix_report_id w).2 = Ok JNull)
  /\ (forall response,
        api E (FixReport fix_report_id) = Some response ->
        truthy response = false ->
        (get_fix_report_details E fix_report_id w).2 = Ok JNull)
  /\ (forall body,
        api E (FixReport fix_report_id) = Some (JObj body) ->
        truthy (default (JArr []) (body !! "fixReport")) = false ->
        (get_fix_report_details E fix_report_id w).2 = Ok JNull).
Proof.
  split_and!.
  - intros Hapi. unfold get_fix_report_details, bind, _make_request, logging, ret.
    by rewrite Hapi.
  - intros response Hapi Hfalse.
    unfold get_fix_report_details, bind, _make_request, logging, ret.
    rewrite Hapi. csimpl. by rewrite Hfalse.
  - intros body Hapi Hfalse.
    unfold get_fix_report_details, bind, _make_request, logging, ret, lift.
    rewrite Hapi. csimpl. destruct (bool_decide (body = ∅)); csimpl; [done|].
    by rewrite Hfalse.
Qed.

(** The Detail Fetcher on a first fix report that is a record, up to the
    reading of the nesting. *)
Lemma get_fix_report_details_first (E : env) (fix_report_id : json) (w : state)
    (body fix_report : gmap string json) (rest : list json) :
  api E (FixReport fix_report_id) = Some (JObj body) ->
  body !! "fixReport" = Some (JArr (JObj fix_report :: rest)) ->
  (get_fix_report_details E fix_report_id w).2
  = let! project :=
      py_get (default (JObj ∅) (fix_report !! "vulnerabilityReport"))
        "project" (JObj ∅) in
    let! project_name :=
      (if truthy project then py_get project "name" JNull else Ok JNull) in
    let! repo_name :=
      (if truthy (default (JObj ∅) (fix_report !! "repo"))
       then py_get (default (JObj ∅) (fix_report !! "repo")) "name" JNull
       else Ok JNull) in
    Ok (JObj (<["project_name" := project_name]>
              (<["repo_name" := repo_name]>
               {["fix_report_id" := fix_report_id]}))).
Proof.
  intros Hapi Hfix.
  unfold get_fix_report_details, bind, _make_request, logging, ret, lift.
  rewrite Hapi. change (default JNull (Some (JObj body))) with (JObj body).
  rewrite (truthy_obj_lookup _ _ _ Hfix). cbn [negb py_get].
  rewrite Hfix.
  change (default (JArr []) (Some (JArr (JObj fix_report :: rest))))
    with (JArr (JObj fix_report :: rest)).
  cbn [truthy negb py_first py_get].
  destruct (py_get (default (JObj ∅) (fix_report !! "vulnerabilityReport"))
              "project" (JObj ∅)) as [project|]; [|done].
  cbn [rbind].
  destruct (if truthy project then py_get project "name" JNull else Ok JNull)
    as [project_name|]; [|done].
  cbn [rbind].
  by destruct (if truthy (default (JObj ∅) (fix_report !! "repo"))
               then py_get (default (JObj ∅) (fix_report !! "repo")) "name" JNull
               else Ok JNull).
Qed.

(** What the Detail Fetcher does tolerate: a key that is absent anywhere on
    the path to a name, and a [project] or a [repo] that is present and
    [None], which [if project:] and [if repo:] pass over.  The name is then
    [None] and nothing is raised. *)
Lemma get_fix_report_details_tolerated (E : env) (fix_report_id : json)
    (w : state) (body fix_report : gmap string json) (rest : list json) :
  api E (FixReport fix_report_id) = Some (JObj body) ->
  body !! "fixReport" = Some (JArr (JObj fix_report :: rest)) ->
  (fix_report !! "vulnerabilityReport" = None
   \/ exists vulnerability_report : gmap string json,
        fix_report !! "vulnerabilityReport" = Some (JObj vulnerability_report)
        /\ (vulnerability_report !! "project" = None
            \/ vulnerability_report !! "project" = Some JNull
            \/ exists project : gmap string json,
                 vulnerability_report !! "project" = Some (JObj project)
                 /\ project !! "name" = None)) ->
  (fix_report !! "repo" = None
   \/ fix_report !! "repo" = Some JNull
   \/ exists repo : gmap string json,
        fix_report !! "repo" = Some (JObj repo) /\ repo !! "name" = None) ->
  (get_fix_report_details E fix_report_id w).2
  = Ok (JObj (<["project_name" := JNull]>
              (<["repo_name" := JNull]>
               {["fix_report_id" := fix_report_id]}))).
Proof.
  intros Hapi Hfix Hproject Hrepo.
  rewrite (get_fix_report_details_first E _ _ _ _ _ Hapi Hfix).
  assert (Hp : (let! project :=
                  py_get (default (JObj ∅) (fix_report !! "vulnerabilityReport"))
                    "project" (JObj ∅) in
                if truthy project then py_get project "name" JNull else Ok JNull)
               = Ok JNull).
  { destruct Hproject as [Hvr|(vr & Hvr & Hp)]; rewrite Hvr;
      cbn [default from_option id py_get rbind].
    - rewrite lookup_empty. cbn [default from_option id truthy].
      by rewrite bool_decide_eq_true_2.
    - destruct Hp as [Hp|[Hp|(project & Hp & Hname)]]; rewrite Hp;
        cbn [default from_option id truthy].
      + by rewrite bool_decide_eq_true_2.
      + done.
      + cbn [py_get]. rewrite Hname. by destruct (negb _). }
  assert (Hr : (if truthy (default (JObj ∅) (fix_report !! "repo"))
                then py_get (default (JObj ∅) (fix_report !! "repo")) "name" JNull
                else Ok JNull)
               = Ok JNull).
  { destruct Hrepo as [Hr|[Hr|(repo & Hr & Hname)]]; rewrite Hr;
      cbn [default from_option id truthy].
    - by rewrite bool_decide_eq_true_2.
    - done.
    - cbn [py_get]. rewrite Hname. by destruct (negb _). }
  destruct (py_get (default (JObj ∅) (fix_report !! "vulnerabilityReport"))
              "project" (JObj ∅)) as [project|]; [|discriminate].
  cbn [rbind] in *. by rewrite Hp, Hr.
Qed.

(** C5 (the code falls short).  A [vulnerabilityReport] that is present and
    [None] is a missing nesting on the path to the project name, and there
    [get_fix_report_details] does not return a record with a [None] name: it
    raises [AttributeError], at [vulnerability_report.get], whatever the rest
    of the response holds.  The report then never reaches the exporter and
    has no row. *)
Theorem get_fix_report_details_null_vulnerability_report
    (E : env) (fix_report_id : json) (w : state)
    (body fix_report : gmap string json) (rest : list json) :
  api E (FixReport fix_report_id) = Some (JObj body) ->
  body !! "fixReport" = Some (JArr (JObj fix_report :: rest)) ->
  fix_report !! "vulnerabilityReport" = Some JNull ->
  (get_fix_report_details E fix_report_id w).2 = Raise AttributeError
  /\ reached E fix_report_id = None
  /\ report_rows E fix_report_id = [].
Proof.
  intros Hapi Hfix Hnull.
  assert (Hraise : forall w0,
            (get_fix_report_details E fix_report_id w0).2 = Raise AttributeError).
  { intros w0. rewrite (get_fix_report_details_first E _ _ _ _ _ Hapi Hfix).
    by rewrite Hnull. }
  assert (Hreached : reached E fix_report_id = None).
  { unfold reached, details_of. by rewrite Hraise. }
  split_and!; [apply Hraise|done|].
  unfold report_rows. by rewrite Hreached.
Qed.

Lemma get_fix_report_details_null_vulnerability_report_witness :
  (get_fix_report_details Demo.E (JStr "r4") initial_state).2
  = Raise AttributeError
  /\ reached Demo.E (JStr "r4") = None
  /\ report_rows Demo.E (JStr "r4") = [].
Proof.
  apply (get_fix_report_details_null_vulnerability_report Demo.E (JStr "r4")
           initial_state {["fixReport" := JArr [JObj {["vulnerabilityReport" := JNull]}]]}
           {["vulnerabilityReport" := JNull]} []);
    reflexivity.
Defined.

(** The worked details of [r1], and what a [vulnerabilityReport] that is
    present but [None] does. *)
Example get_fix_report_details_demo :
  (get_fix_report_details Demo.E (JStr "r1") initial_state).2
  = Ok (JObj (<["project_name" := JStr "shop"]>
              (<["repo_name" := JStr "shop-api"]>
               {["fix_report_id" := JStr "r1"]})))
  /\ (get_fix_report_details Demo.E (JStr "r3") initial_state).2 = Ok JNull
  /\ (get_fix_report_details Demo.E (JStr "r4") initial_state).2
     = Raise AttributeError.
Proof. vm_compute. done. Qed.

(** * Construction *)

Lemma __init___sends_nothing (E : env) (file : config_file) (w w' : state)
    (r : result extractor) :
  __init__ E file w = (w', r) -> requests w' = requests w.
Proof.
  unfold __init__, bind, lift, ret, _initialize_csv. intros H.
  repeat (case_match; csimpl in *; simplify_eq); by simplify_eq.
Qed.

(** C6 (amended).  Construction sends no request at all, and it rejects a
    configuration that cannot be read and a configuration whose API
    credential is missing or is the placeholder, raising before it touches
    anything, so that [main] exits with status 1 without a network call; a
    configuration without a look-back window is not rejected: the window is
    then seven days. *)
Theorem construction_rejects_bad_credential (E : env) (w : state) :
  (forall file w' r,
     __init__ E file w = (w', r) -> requests w' = requests w)
  /\ __init__ E NoSuchFile w = (w, Raise FileNotFoundError)
  /\ __init__ E NotJson w
     = (w, Raise (ValueError "Invalid JSON in configuration file"))
  /\ (forall config,
        credential_missing config = true ->
        __init__ E (Parsed (JObj config)) w
        = (w, Raise (ValueError "Please set your Mobb API token in config.json"))
        /\ main E (Parsed (JObj config)) w = (w, 1%Z))
  /\ (forall config,
        credential_missing config = false ->
        config !! "daysOfData" = None ->
        csv_create E = None ->
        exists w' self,
          __init__ E (Parsed (JObj config)) w = (w', Ok self)
          /\ days_of_data self = JNum 7).
Proof.
  split_and!.
  - intros file w' r. apply __init___sends_nothing.
  - reflexivity.
  - reflexivity.
  - intros config Hmissing. unfold credential_missing in Hmissing.
    assert (Hload : _load_config (Parsed (JObj config))
                    = Raise (ValueError
                               "Please set your Mobb API token in config.json")).
    { unfold _load_config. cbn [py_get rbind].
      destruct (config !! "mobb_api_token") as [token|]; csimpl; [|done].
      by rewrite Hmissing. }
    unfold main, __init__, bind at 1 2, lift. by rewrite Hload.
  - intros config Hpresent Hdays Hcreate. unfold credential_missing in Hpresent.
    destruct (config !! "mobb_api_token") as [token|] eqn:Htoken; [|discriminate].
    assert (Hload : _load_config (Parsed (JObj config)) = Ok (JObj config)).
    { unfold _load_config. cbn [py_get rbind]. rewrite Htoken.
      cbn [default from_option id]. by rewrite Hpresent. }
    unfold __init__. erewrite bind_ok by (unfold lift; rewrite Hload; reflexivity).
    unfold bind, lift, ret, _initialize_csv. cbn [py_get].
    rewrite Hdays, Hcreate. csimpl. eauto.
Qed.

Lemma construction_rejects_bad_credential_witness :
  (__init__ Demo.E
     (Parsed (JObj {["mobb_api_token" := JStr PLACEHOLDER_TOKEN]}))
     initial_state
   = (initial_state,
      Raise (ValueError "Please set your Mobb API token in config.json"))
   /\ main Demo.E
        (Parsed (JObj {["mobb_api_token" := JStr PLACEHOLDER_TOKEN]}))
        initial_state
      = (initial_state, 1%Z))
  /\ (__init__ Demo.E (Parsed (JObj {["daysOfData" := JNum 7]})) initial_state
      = (initial_state,
         Raise (ValueError "Please set your Mobb API token in config.json"))
      /\ main Demo.E (Parsed (JObj {["daysOfData" := JNum 7]})) initial_state
         = (initial_state, 1%Z)).
Proof.
  split.
  - apply (proj1 (proj2 (proj2 (proj2
             (construction_rejects_bad_credential Demo.E initial_state))))).
    reflexivity.
  - apply (proj1 (proj2 (proj2 (proj2
             (construction_rejects_bad_credential Demo.E initial_state))))).
    reflexivity.
Defined.

(** C6 as stated fails on the window: a configuration with a credential and
    no [daysOfData] is accepted, with a window of seven days. *)
Lemma construction_accepts_absent_window :
  __init__ Demo.E (Parsed (JObj {["mobb_api_token" := JStr "secret"]}))
    initial_state
  = (initial_state, Ok (Extractor (JStr "secret") (JStr "api") (JNum 7))).
Proof. vm_compute. reflexivity. Qed.

(** The window is checked by the configuration test only: the test and the
    constructor both accept a configuration without a window, and a window of
    zero days fails the test and passes the constructor. *)
Example window_checked_by_test_only :
  test_configuration
    (Parsed (JObj (<["mobb_api_token" := JStr "secret"]>
                   {["tenant" := JStr "api"]})))
  = true
  /\ test_configuration
       (Parsed (JObj (<["mobb_api_token" := JStr "secret"]>
                      (<["tenant" := JStr "api"]>
                       {["daysOfData" := JNum 0]}))))
     = false
  /\ __init__ Demo.E
       (Parsed (JObj (<["mobb_api_token" := JStr "secret"]>
                      (<["tenant" := JStr "api"]>
                       {["daysOfData" := JNum 0]}))))
       initial_state
     = (initial_state, Ok (Extractor (JStr "secret") (JStr "api") (JNum 0))).
Proof. vm_compute. done. Qed.

(** * Isolation of a failing report *)

(** C7.  When the processing of one report id raises, nothing was appended
    and nothing was counted for that report; the handler of the loop logs the
    exception and the loop goes on with the next report id, from the state
    the failing turn left; and the loop as a whole never raises. *)
Theorem process_reports_isolates_failure (E : env) (report_id : json)
    (rest : list json) (w w1 : state) (e : exn) :
  process_report E report_id w = (w1, Raise e) ->
  csv w1 = csv w
  /\ appends w1 = appends w
  /\ total_irrelevant_issues w1 = total_irrelevant_issues w
  /\ report_rows E report_id = []
  /\ process_reports E (report_id :: rest) w
     = process_reports E rest
         (State (log w1 ++ [ProcessingFailed report_id e]) (csv w1)
            (requests w1) (clock_reads w1) (appends w1)
            (total_irrelevant_issues w1))
  /\ exists w', process_reports E (report_id :: rest) w = (w', Ok tt).
Proof.
  intros Hraise.
  destruct (process_report_run E report_id w)
    as [(w' & Hok & _)|(w' & e' & Hr & (Hc & Ha & Ht) & Hnone)];
    [congruence|].
  rewrite Hraise in Hr. inversion Hr; subst w' e'; clear Hr.
  split_and!; [done|done|done| | |].
  - unfold report_rows. by rewrite Hnone.
  - cbn [process_reports]. unfold bind at 1, try_except.
    by rewrite Hraise.
  - destruct (process_reports_run E (report_id :: rest) w) as (w' & Hrun & _).
    eauto.
Qed.

Lemma process_reports_isolates_failure_witness :
  csv (State [] [] [FixReport (JStr "r4")] 0 0 0) = csv initial_state
  /\ appends (State [] [] [FixReport (JStr "r4")] 0 0 0) = appends initial_state
  /\ total_irrelevant_issues (State [] [] [FixReport (JStr "r4")] 0 0 0)
     = total_irrelevant_issues initial_state
  /\ report_rows Demo.E (JStr "r4") = []
  /\ process_reports Demo.E [JStr "r4"; JStr "r1"] initial_state
     = process_reports Demo.E [JStr "r1"]
         (State [ProcessingFailed (JStr "r4") AttributeError] []
            [FixReport (JStr "r4")] 0 0 0)
  /\ exists w',
       process_reports Demo.E [JStr "r4"; JStr "r1"] initial_state = (w', Ok tt).
Proof.
  apply (process_reports_isolates_failure Demo.E (JStr "r4") [JStr "r1"]
           initial_state (State [] [] [FixReport (JStr "r4")] 0 0 0)
           AttributeError).
  vm_compute. reflexivity.
Defined.

(** The worked loop: [r4] fails and is logged, [r1] is exported after it. *)
Example process_reports_demo :
  process_reports Demo.E [JStr "r4"; JStr "r1"] initial_state
  = (State [ProcessingFailed (JStr "r4") AttributeError] Demo.rows
       [FixReport (JStr "r4"); FixReport (JStr "r1"); Issues (JStr "r1")]
       0 2 2,
     Ok tt).
Proof. vm_compute. reflexivity. Qed.

(** * The returned count and the rows written *)

(** C10.  [_append_to_csv] never raises: when a write fails the file is left
    as it was and the failure is logged.  The count returned by
    [process_all_reports] is the number of appends tried, one per relevant
    issue of the reports that reach the exporter, whatever became of them; the
    rows written are at most that many, and on a full disk the worked run
    returns 2 having written no row. *)
Theorem returned_total_counts_appends :
  (forall (E : env) (issue_data : json) (w : state),
     exists w',
       _append_to_csv E issue_data w = (w', Ok tt)
       /\ appends w' = S (appends w)
       /\ forall e,
            csv_append E (appends w) issue_data = NotWritten e ->
            csv w' = csv w /\ log w' = log w ++ [CsvAppendFailed e])
  /\ (forall (E : env) (self : extractor) (w w' : state) (n : nat),
        process_all_reports E self w = (w', Ok n) ->
        appends w' = (appends w + n)%nat
        /\ (exists report_ids,
              (get_active_reports E self w).2 = Ok report_ids
              /\ n = sum_list (relevant_count E <$> report_ids))
        /\ (length (csv w') <= length (csv w) + n)%nat)
  /\ (process_all_reports Demo.E_full_disk Demo.self initial_state).2 = Ok 2%nat
  /\ csv (process_all_reports Demo.E_full_disk Demo.self initial_state).1 = []
  /\ appends (process_all_reports Demo.E_full_disk Demo.self initial_state).1
     = 2%nat.
Proof.
  split_and!; [| |by vm_compute..].
  - intros E issue_data w. unfold _append_to_csv. eexists.
    split_and!; [reflexivity|reflexivity|].
    intros e ->. csimpl. by rewrite app_nil_r.
  - intros E self w w' n
      (report_ids & Hids & Hn & Ha & landed & Hcsv & Hsub & _)%process_all_reports_run.
    split_and!; [done| |].
    + exists report_ids. by rewrite <- sum_relevant_counts.
    + rewrite Hcsv, length_app, Hn. apply sublist_length in Hsub. lia.
Qed.

Lemma returned_total_counts_appends_witness :
  appends (State [DateParseFailed (JStr "r5") (ValueError "Invalid isoformat string");
                  DateParseFailed (JStr "r7") TypeError;
                  CsvAppendFailed OSError; CsvAppendFailed OSError;
                  NoFixReportData (JStr "r3");
                  ProcessingFailed (JStr "r4") AttributeError]
             []
             [ActiveReports; FixReport (JStr "r1"); Issues (JStr "r1");
              FixReport (JStr "r3"); FixReport (JStr "r4")]
             1 2 2)
  = (appends initial_state + 2)%nat
  /\ (exists report_ids,
        (get_active_reports Demo.E_full_disk Demo.self initial_state).2
        = Ok report_ids
        /\ 2%nat = sum_list (relevant_count Demo.E_full_disk <$> report_ids))
  /\ (length (csv (State [DateParseFailed (JStr "r5")
                            (ValueError "Invalid isoformat string");
                          DateParseFailed (JStr "r7") TypeError;
                          CsvAppendFailed OSError; CsvAppendFailed OSError;
                          NoFixReportData (JStr "r3");
                          ProcessingFailed (JStr "r4") AttributeError]
                     []
                     [ActiveReports; FixReport (JStr "r1"); Issues (JStr "r1");
                      FixReport (JStr "r3"); FixReport (JStr "r4")]
                     1 2 2))
      <= length (csv initial_state) + 2)%nat.
Proof.
  apply (proj1 (proj2 returned_total_counts_appends)
           Demo.E_full_disk Demo.self initial_state).
  vm_compute. reflexivity.
Defined.

(** * Further properties: the requests of a run *)

Section RequestFacts.

Variable E : env.

Lemma get_fix_report_details_trace fix_report_id w :
  exists w', get_fix_report_details E fix_report_id w
             = (w', details_of E fix_report_id)
    /\ requests w' = requests w ++ [FixReport fix_report_id].
Proof.
  unfold details_of, get_fix_report_details. run_monad.
  repeat (case_match; run_monad; simplify_eq); eexists; (split; reflexivity).
Qed.

Lemma get_issues_for_fix_report_trace fix_report_id w :
  exists w', get_issues_for_fix_report E fix_report_id w
             = (w', issues_of E fix_report_id)
    /\ requests w' = requests w ++ [Issues fix_report_id].
Proof.
  unfold issues_of, get_issues_for_fix_report. run_monad.
  repeat (case_match; run_monad; simplify_eq); eexists; (split; reflexivity).
Qed.

Lemma export_issues_sends_nothing details kept : forall w w' r,
  export_issues E details kept w = (w', r) -> requests w' = requests w.
Proof.
  induction kept as [|issue kept IH]; intros w w' r H.
  - by inversion H.
  - cbn [export_issues] in H. unfold bind at 1, lift in H.
    destruct (make_issue_data details issue) as [row|e]; [|by inversion H].
    unfold bind at 1, _append_to_csv in H.
    unfold bind at 1, increment_total in H.
    apply IH in H. exact H.
Qed.

Lemma process_report_trace report_id w w' r :
  process_report E report_id w = (w', r) ->
  requests w' = requests w ++ report_requests E report_id.
Proof.
  unfold process_report, report_requests.
  destruct (get_fix_report_details_trace report_id w) as (w1 & Hd & Hr1).
  destruct (details_of E report_id) as [details|e].
  2:{ erewrite bind_raise by exact Hd. intros H. by inversion H; subst. }
  erewrite bind_ok by exact Hd.
  destruct (truthy details); csimpl.
  2:{ unfold ret. intros H. by inversion H; subst. }
  destruct (get_issues_for_fix_report_trace report_id w1) as (w2 & Hi & Hr2).
  assert (Hreq : requests w2
                 = requests w ++ [FixReport report_id; Issues report_id]).
  { rewrite Hr2, Hr1, <- app_assoc. done. }
  destruct (issues_of E report_id) as [issues|e].
  2:{ erewrite bind_raise by exact Hi. intros H. by inversion H; subst. }
  erewrite bind_ok by exact Hi.
  destruct (truthy issues); csimpl.
  2:{ unfold ret. intros H. by inversion H; subst. }
  unfold bind at 1, lift.
  destruct (filter_fresh issues) as [kept|e]; [|intros H; by inversion H; subst].
  intros H%export_issues_sends_nothing. congruence.
Qed.

Lemma process_reports_trace report_ids : forall w w' r,
  process_reports E report_ids w = (w', r) ->
  requests w' = requests w ++ concat (report_requests E <$> report_ids).
Proof.
  induction report_ids as [|report_id rest IH]; intros w w' r H.
  - inversion H; subst. csimpl. by rewrite app_nil_r.
  - cbn [process_reports] in H. unfold bind at 1, try_except in H.
    destruct (process_report E report_id w) as [w1 [[]|e]] eqn:Hone;
      apply process_report_trace in Hone.
    + apply IH in H. csimpl. by rewrite H, Hone, <- app_assoc.
    + unfold logging in H. apply IH in H. csimpl in *.
      by rewrite H, Hone, <- app_assoc.
Qed.

Lemma get_active_reports_trace self w w' r :
  get_active_reports E self w = (w', r) ->
  requests w' = requests w ++ [ActiveReports].
Proof.
  unfold get_active_reports. run_monad. unfold datetime_now_utc.
  intros H.
  repeat (case_match; run_monad; simplify_eq);
    try match goal with
        | H : consider_reports _ _ _ _ _ = _ |- _ =>
            apply consider_reports_silent in H; destruct H as (?&?&?&?&?)
        end;
    simplify_eq; csimpl in *; done.
Qed.

Lemma report_requests_length report_id :
  (length (report_requests E report_id) <= 2)%nat.
Proof.
  unfold report_requests. destruct (details_of E report_id) as [d|]; csimpl; [|lia].
  destruct (truthy d); csimpl; lia.
Qed.

Lemma concat_requests_length report_ids :
  (length (concat (report_requests E <$> report_ids)) <= 2 * length report_ids)%nat.
Proof.
  induction report_ids as [|report_id rest IH]; [csimpl; lia|].
  rewrite fmap_cons. cbn [concat]. rewrite length_app. cbn [length].
  pose proof (report_requests_length report_id). lia.
Qed.

End RequestFacts.

(** X1.  Whatever a run of [process_all_reports] ends in, the requests it
    sent are, in order: the listing, then for every report id the Lister
    returned the details of that report followed, only when the details came
    back as a record, by its issues.  Nothing is requested for a report the
    Lister left out, and a run over [n] listed reports sends at most
    [1 + 2 * n] requests. *)
Theorem process_all_reports_requests (E : env) (self : extractor)
    (w w' : state) (r : result nat) :
  process_all_reports E self w = (w', r) ->
  requests w'
  = requests w
    ++ ActiveReports
       :: match (get_active_reports E self w).2 with
          | Ok report_ids => concat (report_requests E <$> report_ids)
          | Raise _ => []
          end
  /\ (length (requests w')
      <= length (requests w) + 1
         + 2 * match (get_active_reports E self w).2 with
               | Ok report_ids => length report_ids
               | Raise _ => 0
               end)%nat.
Proof.
  intros H.
  assert (Htrace : requests w'
                   = requests w
                     ++ ActiveReports
                        :: match (get_active_reports E self w).2 with
                           | Ok report_ids => concat (report_requests E <$> report_ids)
                           | Raise _ => []
                           end).
  { unfold process_all_reports, bind at 1 in H.
    destruct (get_active_reports E self w) as [w1 [report_ids|e]] eqn:Hlist;
      pose proof (get_active_reports_trace _ _ _ _ _ Hlist) as Hr1; csimpl.
    - destruct report_ids as [|report_id rest].
      + unfold bind, logging, ret in H. inversion H; subst. by csimpl.
      + unfold bind at 1, reset_total in H. unfold bind at 1 in H.
        destruct (process_reports E (report_id :: rest) _) as [w2 [[]|e]] eqn:Hloop;
          apply process_reports_trace in Hloop; csimpl in Hloop;
          [unfold read_total in H|]; inversion H; subst;
          rewrite Hloop, Hr1, <- app_assoc; done.
    - inversion H; subst. by rewrite Hr1. }
  split; [exact Htrace|]. rewrite Htrace, length_app. csimpl.
  destruct ((get_active_reports E self w).2) as [report_ids|e]; csimpl; [|lia].
  pose proof (concat_requests_length E report_ids). lia.
Qed.

Lemma process_all_reports_requests_witness :
  requests (process_all_reports Demo.E Demo.self initial_state).1
  = requests initial_state
    ++ ActiveReports
       :: match (get_active_reports Demo.E Demo.self initial_state).2 with
          | Ok report_ids => concat (report_requests Demo.E <$> report_ids)
          | Raise _ => []
          end
  /\ (length (requests (process_all_reports Demo.E Demo.self initial_state).1)
      <= length (requests initial_state) + 1
         + 2 * match (get_active_reports Demo.E Demo.self initial_state).2 with
               | Ok report_ids => length report_ids
               | Raise _ => 0
               end)%nat.
Proof.
  apply (process_all_reports_requests Demo.E Demo.self initial_state
           (process_all_reports Demo.E Demo.self initial_state).1
           (process_all_reports Demo.E Demo.self initial_state).2).
  by destruct (process_all_reports Demo.E Demo.self initial_state).
Defined.

(** * Further properties: what a row holds *)

(** X2.  The rows a report hands to the exporter are, in the order of the
    issue list, one row per relevant issue of the report: the project and
    repository names are those of the report's details, the state is the
    issue's non-empty tag values joined by [" | "], the description is the
    issue's [fpDescription] (empty when absent) and the vendor id is the
    issue's own or ["null"].  The details of such a report are the record of
    the two names and the report id, and the issues handed over are the
    relevant ones with the joined string attached. *)
Theorem report_rows_content (E : env) (report_id : json) :
  report_rows E report_id
  = match reached E report_id with
    | Some (details, _) =>
        export_row details <$> List.filter relevant (report_issues E report_id)
    | None => []
    end
  /\ (forall details kept,
        reached E report_id = Some (details, kept) ->
        kept = attach <$> List.filter relevant (report_issues E report_id)
        /\ exists project_name repo_name,
             details = JObj (<["project_name" := project_name]>
                             (<["repo_name" := repo_name]>
                              {["fix_report_id" := report_id]}))).
Proof.
  split; [apply report_rows_export|].
  unfold reached, report_issues. intros details kept.
  destruct (details_of E report_id) as [details'|] eqn:Hd; [|done].
  destruct (truthy details') eqn:Ht; [|done].
  destruct (issues_of E report_id) as [issues|]; [|done].
  destruct (truthy issues); [|done].
  destruct (filter_fresh issues) as [kept'|] eqn:Hf; [|done].
  intros [= <- <-].
  destruct (filter_fresh_ok _ _ Hf) as (elems & -> & ->).
  split; [done|]. by eapply details_of_record.
Qed.

(** The worked report [r1]: two rows, the names from the details. *)
Example report_rows_demo : report_rows Demo.E (JStr "r1") = Demo.rows.
Proof. vm_compute. reflexivity. Qed.

(** * Further properties: what is fatal and what is not *)

Section FatalFacts.

Variable E : env.

(** Once the Lister has returned, the rest of the run returns. *)
Lemma process_all_reports_after_lister self w w1 report_ids :
  get_active_reports E self w = (w1, Ok report_ids) ->
  exists w' n, process_all_reports E self w = (w', Ok n).
Proof.
  intros Hlist. unfold process_all_reports.
  erewrite bind_ok by exact Hlist.
  destruct report_ids as [|report_id rest].
  - unfold bind, logging, ret. eauto.
  - erewrite bind_ok by (unfold reset_total; reflexivity).
    match goal with |- context [bind (process_reports E ?ids) _ ?w2] =>
      destruct (process_reports_run E ids w2) as (w3 & Hrun & _) end.
    erewrite bind_ok by exact Hrun. unfold read_total. eauto.
Qed.

Lemma process_all_reports_raises self w w' e :
  process_all_reports E self w = (w', Raise e)
  <-> get_active_reports E self w = (w', Raise e).
Proof.
  split.
  - intros H.
    destruct (get_active_reports E self w) as [w1 [report_ids|e1]] eqn:Hlist.
    + destruct (process_all_reports_after_lister _ _ _ _ Hlist) as (? & ? & ?).
      congruence.
    + unfold process_all_reports in H.
      erewrite bind_raise in H by exact Hlist. congruence.
  - intros Hlist. unfold process_all_reports. by erewrite bind_raise.
Qed.

Lemma __init___fresh_file (file : config_file) w w1 self :
  __init__ E file w = (w1, Ok self) ->
  csv w1 = [] /\ requests w1 = requests w /\ appends w1 = appends w
  /\ clock_reads w1 = clock_reads w.
Proof.
  unfold __init__, bind, lift, ret, _initialize_csv. intros H.
  repeat (case_match; csimpl in *; simplify_eq); by simplify_eq.
Qed.

End FatalFacts.

(** X3.  Only the Lister can make a run fatal.  [process_all_reports] raises
    exactly when [get_active_reports] raises, with the same exception and in
    the same state; [run] then logs the exception as fatal and raises it
    again; and once the Lister has returned, whatever the reports and their
    issues hold, [process_all_reports] and [run] return. *)
Theorem only_the_lister_is_fatal (E : env) (self : extractor) (w : state) :
  (forall w' e,
     process_all_reports E self w = (w', Raise e)
     <-> get_active_reports E self w = (w', Raise e))
  /\ (forall w' e,
        run E self w = (w', Raise e)
        <-> exists w1,
              get_active_reports E self w = (w1, Raise e)
              /\ w' = State (log w1 ++ [FatalError e]) (csv w1) (requests w1)
                        (clock_reads w1) (appends w1)
                        (total_irrelevant_issues w1))
  /\ (forall w1 report_ids,
        get_active_reports E self w = (w1, Ok report_ids) ->
        (exists w' n, process_all_reports E self w = (w', Ok n))
        /\ exists w', run E self w = (w', Ok tt)).
Proof.
  split_and!.
  - intros w' e. apply process_all_reports_raises.
  - intros w' e. unfold run, try_except, bind at 1.
    destruct (process_all_reports E self w) as [w1 [n|e1]] eqn:Hrun.
    + unfold ret. split; [discriminate|].
      intros (w2 & Hlist%process_all_reports_raises & _). congruence.
    + apply process_all_reports_raises in Hrun.
      unfold bind, logging, raise. split.
      * intros [= <- <-]. eauto.
      * intros (w2 & Hlist & ->). congruence.
  - intros w1 report_ids Hlist.
    destruct (process_all_reports_after_lister E _ _ _ _ Hlist) as (w' & n & Hrun).
    split; [eauto|]. unfold run, try_except, bind at 1. rewrite Hrun.
    unfold ret. eauto.
Qed.

(** X4.  Construction followed by [run], the two statements [main] tries.
    They return exactly when the construction succeeds and the Lister, run by
    the constructed extractor, returns; they raise exactly what the
    construction or the Lister raises; and when they return, the output file
    holds rows of this run only, whatever it held before: rows of the listed
    reports, in order, and all of them when no append fails to write. *)
Theorem fresh_run_output (E : env) (file : config_file) (w w' : state)
    (r : result unit) :
  (let* self := __init__ E file in run E self) w = (w', r) ->
  (r = Ok tt
   <-> exists self w1 report_ids,
         __init__ E file w = (w1, Ok self)
         /\ (get_active_reports E self w1).2 = Ok report_ids)
  /\ (forall e,
        r = Raise e
        <-> (__init__ E file w).2 = Raise e
            \/ exists self w1,
                 __init__ E file w = (w1, Ok self)
                 /\ (get_active_reports E self w1).2 = Raise e)
  /\ (r = Ok tt ->
      exists self w1 report_ids,
        __init__ E file w = (w1, Ok self)
        /\ (get_active_reports E self w1).2 = Ok report_ids
        /\ sublist (csv w') (concat (report_rows E <$> report_ids))
        /\ ((forall k row e, csv_append E k row <> NotWritten e) ->
            csv w' = concat (report_rows E <$> report_ids))).
Proof.
  unfold bind at 1. intros Hmain.
  destruct (__init__ E file w) as [w1 [self|e]] eqn:Hinit.
  2:{ inversion Hmain; subst. split_and!; [|split|discriminate].
      - split; [discriminate|]. by intros (? & ? & ? & [=] & _).
      - intros [= ->]. by left.
      - intros [[= ->]|(? & ? & [=] & _)]. done. }
  destruct (__init___fresh_file E _ _ _ _ Hinit) as (Hfresh & _).
  destruct (get_active_reports E self w1) as [w2 [report_ids|e]] eqn:Hlist.
  - destruct (process_all_reports_after_lister E _ _ _ _ Hlist) as (w3 & n & Hrun).
    unfold run, try_except, bind at 1 in Hmain. rewrite Hrun in Hmain.
    unfold ret in Hmain. inversion Hmain; subst w' r; clear Hmain.
    apply process_all_reports_run in Hrun
      as (ids & Hids & _ & _ & landed & Hcsv & Hsub & Hall).
    rewrite Hlist in Hids. csimpl in Hids. inversion Hids; subst ids.
    rewrite Hfresh in Hcsv. csimpl in Hcsv. subst landed.
    split_and!.
    + split; [|done]. intros _. exists self, w1, report_ids. by rewrite Hlist.
    + intros e. split; [discriminate|].
      intros [[=]|(self' & w1' & [= <- <-] & Hraise)].
      rewrite Hlist in Hraise. discriminate.
    + intros _. exists self, w1, report_ids. rewrite Hlist. by split_and!.
  - assert (Hrun : process_all_reports E self w1 = (w2, Raise e))
      by by apply process_all_reports_raises.
    unfold run, try_except, bind at 1 in Hmain. rewrite Hrun in Hmain.
    unfold bind, logging, raise in Hmain.
    inversion Hmain; subst w' r; clear Hmain.
    split_and!; [| |discriminate].
    + split; [discriminate|].
      intros (self' & w1' & ids & [= <- <-] & Hids).
      rewrite Hlist in Hids. discriminate.
    + intros e'. split.
      * intros [= ->]. right. exists self, w1. by rewrite Hlist.
      * intros [[=]|(self' & w1' & [= <- <-] & Hraise)].
        rewrite Hlist in Hraise. csimpl in Hraise. congruence.
Qed.

Lemma fresh_run_output_witness :
  (Ok tt = Ok tt
   <-> exists self w1 report_ids,
         __init__ Demo.E (Parsed (JObj {["mobb_api_token" := JStr "secret"]}))
           (State [] [JNull] [] 0 0 0)
         = (w1, Ok self)
         /\ (get_active_reports Demo.E self w1).2 = Ok report_ids)
  /\ (forall e,
        Ok tt = Raise e
        <-> (__init__ Demo.E
               (Parsed (JObj {["mobb_api_token" := JStr "secret"]}))
               (State [] [JNull] [] 0 0 0)).2
            = Raise e
            \/ exists self w1,
                 __init__ Demo.E
                   (Parsed (JObj {["mobb_api_token" := JStr "secret"]}))
                   (State [] [JNull] [] 0 0 0)
                 = (w1, Ok self)
                 /\ (get_active_reports Demo.E self w1).2 = Raise e)
  /\ (Ok tt = Ok tt ->
      exists self w1 report_ids,
        __init__ Demo.E (Parsed (JObj {["mobb_api_token" := JStr "secret"]}))
          (State [] [JNull] [] 0 0 0)
        = (w1, Ok self)
        /\ (get_active_reports Demo.E self w1).2 = Ok report_ids
        /\ sublist
             (csv ((let* self := __init__ Demo.E
                                   (Parsed (JObj {["mobb_api_token" := JStr "secret"]})) in
                    run Demo.E self)
                     (State [] [JNull] [] 0 0 0)).1)
             (concat (report_rows Demo.E <$> report_ids))
        /\ ((forall k row e, csv_append Demo.E k row <> NotWritten e) ->
            csv ((let* self := __init__ Demo.E
                                  (Parsed (JObj {["mobb_api_token" := JStr "secret"]})) in
                   run Demo.E self)
                    (State [] [JNull] [] 0 0 0)).1
            = concat (report_rows Demo.E <$> report_ids))).
Proof.
  apply (fresh_run_output Demo.E
           (Parsed (JObj {["mobb_api_token" := JStr "secret"]}))
           (State [] [JNull] [] 0 0 0)).
  vm_compute. reflexivity.
Defined.

(** The worked run: a stale row in the file is gone and the two rows of [r1]
    are there. *)
Example fresh_run_demo :
  csv ((let* self := __init__ Demo.E
                        (Parsed (JObj {["mobb_api_token" := JStr "secret"]})) in
        run Demo.E self)
         (State [] [JNull] [] 0 0 0)).1
  = Demo.rows.
Proof. vm_compute. reflexivity. Qed.

(** X5.  A listing request that fails, or that comes back empty, is not
    fatal: the Lister returns no report, [process_all_reports] returns 0
    having sent that one request and written nothing, and [run] returns. *)
Theorem failed_listing_degrades (E : env) (self : extractor) (w : state) :
  truthy (default JNull (api E ActiveReports)) = false ->
  exists w',
    process_all_reports E self w = (w', Ok 0%nat)
    /\ run E self w = (w', Ok tt)
    /\ requests w' = requests w ++ [ActiveReports]
    /\ csv w' = csv w
    /\ appends w' = appends w
    /\ clock_reads w' = clock_reads w
    /\ log w'
       = log w
         ++ match api E ActiveReports with
            | Some _ => []
            | None => [RequestFailed ActiveReports]
            end
         ++ [ActiveReportsFailed; NoActiveReports].
Proof.
  intros Hfalse. eexists.
  unfold run, try_except, process_all_reports, get_active_reports, bind,
    _make_request, logging, ret.
  rewrite Hfalse. cbn [negb]. split_and!; try reflexivity.
  cbn [log]. by rewrite <- !app_assoc.
Qed.

Lemma failed_listing_degrades_witness :
  exists w',
    process_all_reports (Env (fun _ => None) (fun _ => 0%Z) Iso.parse
                           (fun _ _ => Written) None)
      Demo.self initial_state
    = (w', Ok 0%nat)
    /\ run (Env (fun _ => None) (fun _ => 0%Z) Iso.parse (fun _ _ => Written) None)
         Demo.self initial_state
       = (w', Ok tt)
    /\ requests w' = requests initial_state ++ [ActiveReports]
    /\ csv w' = csv initial_state
    /\ appends w' = appends initial_state
    /\ clock_reads w' = clock_reads initial_state
    /\ log w'
       = log initial_state
         ++ [RequestFailed ActiveReports]
         ++ [ActiveReportsFailed; NoActiveReports].
Proof.
  apply (failed_listing_degrades
           (Env (fun _ => None) (fun _ => 0%Z) Iso.parse (fun _ _ => Written) None)
           Demo.self initial_state).
  reflexivity.
Defined.

(** * Further properties: the Lister on any listing *)

Section ListerFacts.

Variable E : env.

(** One turn of the loop that gets through leaves the list as it was or
    appends the true id of a record. *)
Lemma consider_report_ok cutoff_date report filtered w w' filtered' :
  consider_report E cutoff_date report filtered w = (w', Ok filtered') ->
  is_record report = true
  /\ (filtered' = filtered
      \/ filtered' = filtered ++ [report_id_of report]
         /\ truthy (report_id_of report) = true).
Proof.
  unfold consider_report, try_except, parse_created_on, datetime_ge, report_id_of.
  run_monad. intros H. destruct report; try discriminate. split; [done|].
  csimpl in H. destruct (truthy (default JNull (d !! "id"))); csimpl in H.
  - repeat (case_match; run_monad; simplify_eq); simplify_eq; eauto.
  - simplify_eq. by left.
Qed.

Lemma consider_reports_ok cutoff_date fix_reports : forall filtered w w' ids,
  consider_reports E cutoff_date fix_reports filtered w = (w', Ok ids) ->
  forallb is_record fix_reports = true
  /\ exists kept,
       sublist kept fix_reports
       /\ ids = filtered ++ (report_id_of <$> kept)
       /\ Forall (fun report => truthy (report_id_of report) = true) kept.
Proof.
  induction fix_reports as [|report rest IH]; intros filtered w w' ids H.
  - inversion H; subst. split; [done|]. exists []. by rewrite app_nil_r.
  - cbn [consider_reports] in H. unfold bind at 1 in H.
    destruct (consider_report E cutoff_date report filtered w)
      as [w1 [filtered1|e]] eqn:Hone; [|discriminate].
    apply consider_report_ok in Hone as (Hrec & Hcase).
    apply IH in H as (Hrecs & kept & Hsub & -> & Htrue).
    split; [csimpl; by rewrite Hrec|].
    destruct Hcase as [->|[-> Hid]].
    + exists kept. split_and!; [by constructor|done|done].
    + exists (report :: kept). split_and!; [by constructor| |by constructor].
      csimpl. by rewrite <- app_assoc.
Qed.

Lemma no_record_among_strings (xs : list string) :
  forallb is_record (JStr <$> xs) = true -> xs = [].
Proof. by destruct xs. Qed.

(** A listed value that is not a record stops the loop. *)
Lemma consider_reports_raises cutoff_date offset fix_reports :
  utcoffset cutoff_date = Some offset ->
  forallb is_record fix_reports = false ->
  forall filtered w, exists w',
    consider_reports E cutoff_date fix_reports filtered w
    = (w', Raise AttributeError)
    /\ silent w w'.
Proof.
  intros Hoff. induction fix_reports as [|report rest IH]; [discriminate|].
  intros Hbad filtered w. cbn [consider_reports]. csimpl in Hbad.
  destruct report as [| | | | |d];
    try (exists w; split; [reflexivity|by repeat split]).
  csimpl in Hbad.
  destruct (consider_report_run E cutoff_date offset d filtered w Hoff)
    as (w1 & H1 & Hs1).
  erewrite bind_ok by exact H1.
  match goal with |- context [consider_reports _ _ _ ?acc w1] =>
    destruct (IH Hbad acc w1) as (w' & Hw' & Hs') end.
  exists w'. split; [done|]. by eapply silent_trans.
Qed.

(** The Lister on a listing record, step by step up to the loop. *)
Lemma get_active_reports_unfold self w (body : gmap string json) fix_reports
    delta cutoff_date :
  api E ActiveReports = Some (JObj body) ->
  body <> ∅ ->
  default (JArr []) (body !! "fixReport") = fix_reports ->
  timedelta_days (days_of_data self) = Ok delta ->
  datetime_sub (Datetime (utcnow E (clock_reads w)) (Some 0%Z)) delta
  = Ok cutoff_date ->
  get_active_reports E self w
  = (let* reports := lift (py_iter fix_reports) in
     let* filtered_report_ids := consider_reports E cutoff_date reports [] in
     let* _ := lift (py_len fix_reports) in
     ret filtered_report_ids)
      (State (log w) (csv w) (requests w ++ [ActiveReports])
         (S (clock_reads w)) (appends w) (total_irrelevant_issues w)).
Proof.
  intros Hapi Hne Hfix Hdelta Hcutoff. unfold get_active_reports.
  erewrite bind_ok by (unfold _make_request; rewrite Hapi; reflexivity).
  change (default JNull (Some (JObj body))) with (JObj body).
  cbn [truthy]. rewrite bool_decide_eq_false_2 by done. cbn [negb].
  erewrite bind_ok by (unfold lift; cbn [py_get]; rewrite Hfix; reflexivity).
  erewrite bind_ok by (unfold datetime_now_utc; reflexivity).
  erewrite bind_ok by (unfold lift; rewrite Hdelta; reflexivity).
  cbn [clock_reads log csv requests appends total_irrelevant_issues].
  erewrite bind_ok by (unfold lift; rewrite Hcutoff; reflexivity).
  by rewrite app_nil_r.
Qed.

End ListerFacts.

Section ListerRuns.

Variable E : env.

(** A run of the Lister that returns either saw a false response, or went
    through the loop over the elements of [fixReport]. *)
Lemma get_active_reports_ok self w w' report_ids :
  get_active_reports E self w = (w', Ok report_ids) ->
  (truthy (default JNull (api E ActiveReports)) = false /\ report_ids = [])
  \/ exists body delta cutoff_date reports,
       api E ActiveReports = Some (JObj body)
       /\ body <> ∅
       /\ timedelta_days (days_of_data self) = Ok delta
       /\ datetime_sub (Datetime (utcnow E (clock_reads w)) (Some 0%Z)) delta
          = Ok cutoff_date
       /\ py_iter (default (JArr []) (body !! "fixReport")) = Ok reports
       /\ consider_reports E cutoff_date reports [] (listing_read w)
          = (w', Ok report_ids).
Proof.
  unfold get_active_reports. unfold bind at 1, _make_request.
  destruct (truthy (default JNull (api E ActiveReports))) eqn:Ht; cbn [negb].
  2:{ unfold bind, logging, ret. cbn. intros [= <- <-]. by left. }
  intros H. right.
  destruct (api E ActiveReports) as [[| | | | |body]|] eqn:Hapi;
    try discriminate.
  change (default JNull (Some (JObj body))) with (JObj body) in H.
  unfold bind, lift, datetime_now_utc, ret in H.
  cbn [py_get clock_reads log csv requests appends
       total_irrelevant_issues] in H.
  destruct (timedelta_days (days_of_data self)) as [delta|]; [|discriminate].
  destruct (datetime_sub _ delta) as [cutoff_date|] eqn:Hcut; [|discriminate].
  destruct (py_iter (default (JArr []) (body !! "fixReport")))
    as [reports|] eqn:Hiter; [|discriminate].
  rewrite app_nil_r in H.
  destruct (consider_reports E cutoff_date reports [] _)
    as [w2 [ids|]] eqn:Hloop; [|discriminate].
  destruct (py_len _); [|discriminate]. inversion H; subst.
  eexists body, delta, cutoff_date, reports. split_and!; try done.
  intros ->. cbn in Ht. by rewrite bool_decide_eq_true_2 in Ht.
Qed.

(** What is iterated is the listing when there is one, and holds no record
    otherwise. *)
Lemma iterated_reports (body : gmap string json) reports :
  api E ActiveReports = Some (JObj body) ->
  py_iter (default (JArr []) (body !! "fixReport")) = Ok reports ->
  forallb is_record reports = true ->
  reports = listing_reports E.
Proof.
  intros Hapi Hiter Hrec. unfold listing_reports. rewrite Hapi.
  destruct (body !! "fixReport") as [[| | |s|l|d]|]; csimpl in *;
    simplify_eq; try done.
  - unfold chars in *. by destruct (String.list_ascii_of_string s).
  - by destruct ((map_to_list d).*1).
Qed.

Lemma records_are_objects reports :
  forallb is_record reports = true ->
  Forall (fun report => exists d, report = JObj d) reports.
Proof.
  intros Hall. apply Forall_forall. intros report Hin%list_elem_of_In.
  rewrite forallb_forall in Hall. apply Hall in Hin.
  destruct report; try discriminate. eauto.
Qed.

Lemma sublist_filter_impl {A} (P Q : A -> bool) (xs : list A) :
  (forall x, P x = true -> Q x = true) ->
  sublist (List.filter P xs) (List.filter Q xs).
Proof.
  intros Himpl. induction xs as [|x xs IH]; csimpl; [constructor|].
  destruct (P x) eqn:HP.
  - rewrite (Himpl _ HP). by constructor.
  - destruct (Q x); [by constructor|done].
Qed.

Lemma listed_earlier cutoff1 cutoff2 report :
  (cutoff2 <= cutoff1)%Z ->
  listed E cutoff1 report = true -> listed E cutoff2 report = true.
Proof.
  unfold listed. intros Hle [Hid Hat]%andb_true_iff. rewrite Hid. csimpl.
  destruct (created_instant E report); [|done]. lia.
Qed.

End ListerRuns.

(** X6.  Whenever the Lister returns, the ids it returns are the ids of
    reports of the listing, in the listing's order; every one of them is a
    true value (never [None], never the empty string) read from a record; and
    there are at most as many as the listing has reports.  A failed or empty
    listing, or one without a list of reports, gives no id. *)
Theorem get_active_reports_ids (E : env) (self : extractor) (w w' : state)
    (report_ids : list json) :
  get_active_reports E self w = (w', Ok report_ids) ->
  (exists kept,
     sublist kept (listing_reports E)
     /\ report_ids = report_id_of <$> kept
     /\ Forall (fun report => is_record report = true) kept)
  /\ Forall (fun report_id => truthy report_id = true) report_ids
  /\ (length report_ids <= length (listing_reports E))%nat.
Proof.
  intros Hrun.
  assert (exists kept,
            sublist kept (listing_reports E)
            /\ report_ids = report_id_of <$> kept
            /\ Forall (fun report => is_record report = true) kept
            /\ Forall (fun report => truthy (report_id_of report) = true) kept)
    as (kept & Hsub & -> & Hrec & Htrue).
  { destruct (get_active_reports_ok E _ _ _ _ Hrun)
      as [[_ ->]|(body & delta & cutoff_date & reports & Hapi & _ & _ & _ & Hiter
                  & Hloop)].
    - exists []. split_and!; [apply sublist_nil_l|done|done|done].
    - apply consider_reports_ok in Hloop as (Hall & kept & Hsub & -> & Htrue).
      pose proof (iterated_reports E _ _ Hapi Hiter Hall) as ->.
      exists kept. split_and!; [done|done| |done].
      apply Forall_forall. intros report Hin.
      rewrite forallb_forall in Hall. apply Hall, list_elem_of_In.
      by eapply elem_of_sublist. }
  split_and!.
  - by exists kept.
  - by apply Forall_fmap.
  - rewrite length_fmap. by apply sublist_length.
Qed.

Lemma get_active_reports_ids_witness :
  (exists kept,
     sublist kept (listing_reports Demo.E)
     /\ [JStr "r1"; JStr "r3"; JStr "r4"] = report_id_of <$> kept
     /\ Forall (fun report => is_record report = true) kept)
  /\ Forall (fun report_id => truthy report_id = true)
       [JStr "r1"; JStr "r3"; JStr "r4"]
  /\ (length [JStr "r1"; JStr "r3"; JStr "r4"]
      <= length (listing_reports Demo.E))%nat.
Proof.
  apply (get_active_reports_ids Demo.E Demo.self initial_state
           (get_active_reports Demo.E Demo.self initial_state).1).
  vm_compute. reflexivity.
Defined.

(** X7.  A listing whose list of reports holds anything but records is
    fatal: the Lister raises, so [process_all_reports] raises, having sent
    the one request and written nothing; with a usable window the exception
    is the [AttributeError] of [report.get]. *)
Theorem malformed_listing_is_fatal (E : env) (self : extractor) (w : state)
    (body : gmap string json) (fix_reports : list json) :
  api E ActiveReports = Some (JObj body) ->
  body !! "fixReport" = Some (JArr fix_reports) ->
  forallb is_record fix_reports = false ->
  exists w' e,
    get_active_reports E self w = (w', Raise e)
    /\ process_all_reports E self w = (w', Raise e)
    /\ requests w' = requests w ++ [ActiveReports]
    /\ csv w' = csv w
    /\ (forall delta cutoff_date,
          timedelta_days (days_of_data self) = Ok delta ->
          datetime_sub (Datetime (utcnow E (clock_reads w)) (Some 0%Z)) delta
          = Ok cutoff_date ->
          e = AttributeError).
Proof.
  intros Hapi Hfix Hbad.
  assert (Hne : body <> ∅) by (intros ->; by rewrite lookup_empty in Hfix).
  assert (exists w' e,
            get_active_reports E self w = (w', Raise e)
            /\ requests w' = requests w ++ [ActiveReports]
            /\ csv w' = csv w
            /\ (forall delta cutoff_date,
                  timedelta_days (days_of_data self) = Ok delta ->
                  datetime_sub (Datetime (utcnow E (clock_reads w)) (Some 0%Z)) delta
                  = Ok cutoff_date ->
                  e = AttributeError))
    as (w' & e & Hrun & Hreq & Hcsv & He).
  { destruct (timedelta_days (days_of_data self)) as [delta|e1] eqn:Hdelta.
    - destruct (datetime_sub (Datetime (utcnow E (clock_reads w)) (Some 0%Z)) delta)
        as [cutoff_date|e2] eqn:Hcut.
      + rewrite (get_active_reports_unfold E self w body (JArr fix_reports)
                   delta cutoff_date) by (try done; by rewrite Hfix).
        unfold bind at 1, lift. cbn [py_iter].
        assert (Hoff : utcoffset cutoff_date = Some 0%Z).
        { unfold datetime_sub in Hcut. by case_match; simplify_eq. }
        destruct (consider_reports_raises E cutoff_date 0%Z fix_reports Hoff Hbad []
                    (State (log w) (csv w) (requests w ++ [ActiveReports])
                       (S (clock_reads w)) (appends w) (total_irrelevant_issues w)))
          as (w' & Hw' & Hcsv & Hreq & _).
        erewrite bind_raise by exact Hw'. exists w', AttributeError.
        split_and!; [done|by rewrite Hreq|by rewrite Hcsv|done].
      + unfold get_active_reports, bind, _make_request, lift, datetime_now_utc.
        rewrite Hapi.
        change (default JNull (Some (JObj body))) with (JObj body).
        cbn [truthy py_get]. rewrite bool_decide_eq_false_2 by done.
        cbn [negb]. rewrite Hdelta.
        cbn [clock_reads log csv requests appends total_irrelevant_issues].
        rewrite Hcut. eexists _, e2.
        split_and!; [reflexivity|done|done|intros; congruence].
    - unfold get_active_reports, bind, _make_request, lift, datetime_now_utc.
      rewrite Hapi.
      change (default JNull (Some (JObj body))) with (JObj body).
      cbn [truthy py_get]. rewrite bool_decide_eq_false_2 by done.
      cbn [negb]. rewrite Hdelta. eexists _, e1.
      split_and!; [reflexivity|done|done|intros; congruence]. }
  exists w', e. split_and!; try done. by apply process_all_reports_raises.
Qed.

Lemma malformed_listing_is_fatal_witness :
  exists w' e,
    get_active_reports
      (Env (fun _ => Some (JObj {["fixReport" := JArr [JStr "r1"]]}))
         (fun _ => Demo.NOW) Iso.parse (fun _ _ => Written) None)
      Demo.self initial_state
    = (w', Raise e)
    /\ process_all_reports
         (Env (fun _ => Some (JObj {["fixReport" := JArr [JStr "r1"]]}))
            (fun _ => Demo.NOW) Iso.parse (fun _ _ => Written) None)
         Demo.self initial_state
       = (w', Raise e)
    /\ requests w' = requests initial_state ++ [ActiveReports]
    /\ csv w' = csv initial_state
    /\ (forall delta cutoff_date,
          timedelta_days (days_of_data Demo.self) = Ok delta ->
          datetime_sub (Datetime Demo.NOW (Some 0%Z)) delta = Ok cutoff_date ->
          e = AttributeError).
Proof.
  apply (malformed_listing_is_fatal
           (Env (fun _ => Some (JObj {["fixReport" := JArr [JStr "r1"]]}))
              (fun _ => Demo.NOW) Iso.parse (fun _ _ => Written) None)
           Demo.self initial_state {["fixReport" := JArr [JStr "r1"]]}
           [JStr "r1"]);
    reflexivity.
Defined.

(** X8.  Widening the window never loses a report: read at the same clock
    reading, the ids listed for a shorter window are among the ids listed for
    a longer one, in the same order. *)
Theorem wider_window_keeps_reports (E : env) (self1 self2 : extractor)
    (days1 days2 : Z) (w w1 w2 : state) (ids1 ids2 : list json) :
  days_of_data self1 = JNum days1 ->
  days_of_data self2 = JNum days2 ->
  (days1 <= days2)%Z ->
  get_active_reports E self1 w = (w1, Ok ids1) ->
  get_active_reports E self2 w = (w2, Ok ids2) ->
  sublist ids1 ids2.
Proof.
  intros Hd1 Hd2 Hle Hrun1 Hrun2.
  destruct (get_active_reports_ok E _ _ _ _ Hrun1)
    as [[Hfalse ->]|(body & delta1 & cutoff1 & reports & Hapi & Hne & Hdelta1
                     & Hcut1 & Hiter & Hloop1)];
    [apply sublist_nil_l|].
  destruct (get_active_reports_ok E _ _ _ _ Hrun2)
    as [[Hfalse _]|(body' & delta2 & cutoff2 & reports' & Hapi' & _ & Hdelta2
                    & Hcut2 & Hiter' & Hloop2)].
  { rewrite Hapi in Hfalse. cbn in Hfalse.
    by rewrite bool_decide_eq_false_2 in Hfalse. }
  assert (body' = body) as -> by congruence.
  assert (reports' = reports) as -> by congruence.
  pose proof (consider_reports_ok E _ _ _ _ _ _ Hloop1) as (Hall & _).
  apply records_are_objects in Hall.
  rewrite Hd1 in Hdelta1. rewrite Hd2 in Hdelta2.
  unfold timedelta_days in Hdelta1, Hdelta2.
  destruct (Z.abs days1 <=? MAX_DELTA_DAYS)%Z; [|discriminate].
  destruct (Z.abs days2 <=? MAX_DELTA_DAYS)%Z; [|discriminate].
  simplify_eq.
  unfold datetime_sub in Hcut1, Hcut2. cbn [wall utcoffset] in Hcut1, Hcut2.
  repeat case_match; simplify_eq.
  destruct (consider_reports_run E
              (Datetime (utcnow E (clock_reads w) - days1 * MICROSECONDS_PER_DAY)
                 (Some 0%Z)) 0%Z reports eq_refl Hall [] (listing_read w))
    as (w1' & Hrun1' & _).
  destruct (consider_reports_run E
              (Datetime (utcnow E (clock_reads w) - days2 * MICROSECONDS_PER_DAY)
                 (Some 0%Z)) 0%Z reports eq_refl Hall [] (listing_read w))
    as (w2' & Hrun2' & _).
  rewrite Hrun1' in Hloop1. rewrite Hrun2' in Hloop2. simplify_eq. csimpl.
  apply fmap_sublist, sublist_filter_impl. intros report.
  apply listed_earlier. cbn [wall]. unfold MICROSECONDS_PER_DAY. lia.
Qed.

Lemma wider_window_keeps_reports_witness :
  sublist [JStr "r1"; JStr "r3"; JStr "r4"]
    [JStr "r1"; JStr "r2"; JStr "r3"; JStr "r4"].
Proof.
  apply (wider_window_keeps_reports Demo.E Demo.self
           (Extractor (JStr "secret") (JStr "api") (JNum 60)) 7 60
           initial_state
           (get_active_reports Demo.E Demo.self initial_state).1
           (get_active_reports Demo.E
              (Extractor (JStr "secret") (JStr "api") (JNum 60)) initial_state).1);
    [reflexivity|reflexivity|lia|vm_compute; reflexivity|vm_compute; reflexivity].
Defined.

(** * Further properties: timestamps *)

Lemma replace_Z_app (a b : string) :
  replace_Z (a +:+ b) = replace_Z a +:+ replace_Z b.
Proof.
  induction a as [|c a IH]; [done|].
  change (String c a +:+ b) with (String c (a +:+ b)). cbn [replace_Z].
  rewrite IH. by destruct (Ascii.eqb c "Z").
Qed.

Lemma append_nonempty (a b : string) :
  b <> EmptyString -> String.eqb (a +:+ b) EmptyString = false.
Proof. destruct a, b; done. Qed.

Section TimestampFacts.

Variable E : env.

Lemma parse_created_on_zulu (a b : string) :
  parse_created_on E (JStr (a +:+ "Z" +:+ b))
  = parse_created_on E (JStr (a +:+ "+00:00" +:+ b)).
Proof.
  unfold parse_created_on. by rewrite !replace_Z_app.
Qed.

End TimestampFacts.

(** X9.  A [Z] in a timestamp is read as [+00:00]: the Lister and the
    connectivity test treat a report whose [createdOn] is written with a [Z]
    exactly as they treat the same report with the offset spelled out,
    whatever the parser, the cutoff and the rest of the report. *)
Theorem zulu_is_utc (E : env) (cutoff_date : datetime)
    (report : gmap string json) (a b : string) :
  (forall filtered w,
     consider_report E cutoff_date
       (JObj (<["createdOn" := JStr (a +:+ "Z" +:+ b)]> report)) filtered w
     = consider_report E cutoff_date
         (JObj (<["createdOn" := JStr (a +:+ "+00:00" +:+ b)]> report)) filtered w)
  /\ (forall filtered_count,
        count_report E cutoff_date
          (JObj (<["createdOn" := JStr (a +:+ "Z" +:+ b)]> report)) filtered_count
        = count_report E cutoff_date
            (JObj (<["createdOn" := JStr (a +:+ "+00:00" +:+ b)]> report))
            filtered_count).
Proof.
  split.
  - intros filtered w. unfold consider_report, bind, lift, try_except.
    cbn [py_get]. rewrite !lookup_insert_eq.
    destruct (decide ("id" = "createdOn")) as [|Hne]; [done|].
    rewrite !(lookup_insert_ne report "createdOn" "id") by done.
    cbn [default truthy]. unfold id. cbn [truthy]. rewrite !append_nonempty by done.
    by rewrite parse_created_on_zulu.
  - intros filtered_count. unfold count_report. cbn [py_get rbind].
    rewrite !lookup_insert_eq. cbn [default truthy]. unfold id. cbn [truthy].
    rewrite !append_nonempty by done.
    by rewrite parse_created_on_zulu.
Qed.

(** * Further properties: the batch writer *)

Section WriterFacts.

Variable E : env.

(** A dictionary with exactly the five columns is written as it is. *)
Lemma _dict_to_list_row (a b c d e : json) :
  _dict_to_list (Demo.row a b c d e) = Ok (Demo.row a b c d e).
Proof. vm_compute. reflexivity. Qed.

Lemma export_row_is_row details issue :
  exists a b c d e, export_row details issue = Demo.row a b c d e.
Proof. unfold export_row, Demo.row. by eexists _, _, _, _, _. Qed.

Lemma _dict_to_list_export_row details issue :
  _dict_to_list (export_row details issue) = Ok (export_row details issue).
Proof.
  destruct (export_row_is_row details issue) as (a & b & c & d & e & Heq).
  rewrite Heq. apply _dict_to_list_row.
Qed.

Lemma writerows_rows rows : forall file,
  Forall (fun row => _dict_to_list row = Ok row) rows ->
  writerows rows file = (file ++ rows, Ok tt).
Proof.
  induction rows as [|row rows IH]; intros file Hrows; csimpl.
  - by rewrite app_nil_r.
  - inversion Hrows as [|? ? Hrow Hrest]; subst. rewrite Hrow, (IH _ Hrest).
    by rewrite <- app_assoc.
Qed.

Lemma report_rows_writable report_ids :
  Forall (fun row => _dict_to_list row = Ok row)
    (concat (report_rows E <$> report_ids)).
Proof.
  apply Forall_concat, Forall_fmap, Forall_forall. intros report_id _. csimpl.
  rewrite report_rows_export.
  destruct (reached E report_id) as [[details kept]|]; [|constructor].
  apply Forall_fmap, Forall_forall. intros issue _.
  apply _dict_to_list_export_row.
Qed.

(** A kept issue carries a key that is no column. *)
Lemma _dict_to_list_kept (d : gmap string json) (s : string) :
  _dict_to_list (JObj (<[CONCATENATED_TAGS := JStr s]> d))
  = Raise (ValueError "dict contains fields not in fieldnames").
Proof.
  unfold _dict_to_list.
  destruct (forallb _ _) eqn:Hall; [|done].
  rewrite forallb_forall in Hall.
  assert (Habs : bool_decide (CONCATENATED_TAGS ∈ FIELDNAMES) = true);
    [|by vm_compute in Habs].
  apply Hall, list_elem_of_In, list_elem_of_fmap.
  exists (CONCATENATED_TAGS, JStr s). split; [done|].
  apply elem_of_map_to_list, lookup_insert_eq.
Qed.

Lemma filter_fresh_head issues kept :
  filter_fresh issues = Ok kept -> kept <> [] ->
  exists d s rest, kept = JObj (<[CONCATENATED_TAGS := JStr s]> d) :: rest.
Proof.
  intros Hf Hne.
  destruct (filter_fresh_verdicts _ _ Hf) as (elems & Hiter & Hverdicts).
  destruct (filter_fresh_ok _ _ Hf) as (elems' & Hiter' & ->).
  assert (elems' = elems) as -> by congruence.
  destruct (List.filter relevant elems) as [|issue rest] eqn:Hkept; [done|].
  assert (Hin : In issue (List.filter relevant elems))
    by (rewrite Hkept; by left).
  apply filter_In in Hin as [Hin%list_elem_of_In Hrel].
  rewrite Forall_forall in Hverdicts.
  destruct (Hverdicts _ Hin) as [r Hc].
  pose proof (concatenated_tags_inv _ _ Hc) as Hr. rewrite Hrel in Hr. subst r.
  destruct (relevant_obj _ Hrel) as [d ->].
  csimpl. unfold attach at 1. rewrite Hc. csimpl. eauto.
Qed.

End WriterFacts.

(** X10.  [write_csv_report], the batch writer the pipeline does not call,
    when the output file can be created: handed the rows the run exports it
    replaces whatever the file held by exactly those rows, the same file the
    row-by-row appends leave when every append lands; handed what
    [filter_irrelevant_issues] returns, as its parameter name invites, it
    raises [ValueError] on the first issue, because a kept issue carries
    [concatenated_tags], which is no column, and leaves the file emptied;
    handed an empty list it leaves the file alone and logs a warning. *)
Theorem write_csv_report_batch (E : env) (file : list json) :
  csv_create E = None ->
  (forall report_ids,
     concat (report_rows E <$> report_ids) <> [] ->
     write_csv_report E (JArr (concat (report_rows E <$> report_ids))) file
     = (concat (report_rows E <$> report_ids), [], Ok tt))
  /\ (forall issues kept,
        filter_fresh issues = Ok kept -> kept <> [] ->
        write_csv_report E (JArr kept) file
        = ([],
           [WritingFailed (ValueError "dict contains fields not in fieldnames")],
           Raise (ValueError "dict contains fields not in fieldnames")))
  /\ write_csv_report E (JArr []) file = (file, [NothingToWrite], Ok tt).
Proof.
  intros Hcreate. split_and!; [| |done].
  - intros report_ids Hne. unfold write_csv_report.
    destruct (concat (report_rows E <$> report_ids)) as [|row rows] eqn:Hrows;
      [done|].
    cbn [truthy negb py_len py_iter]. rewrite Hcreate.
    rewrite writerows_rows; [done|].
    rewrite <- Hrows. apply report_rows_writable.
  - intros issues kept Hf Hne.
    destruct (filter_fresh_head _ _ Hf Hne) as (d & s & rest & ->).
    unfold write_csv_report. cbn [truthy negb py_len py_iter].
    rewrite Hcreate. cbn [writerows]. by rewrite _dict_to_list_kept.
Qed.

Lemma write_csv_report_batch_witness :
  (forall report_ids,
     concat (report_rows Demo.E <$> report_ids) <> [] ->
     write_csv_report Demo.E (JArr (concat (report_rows Demo.E <$> report_ids)))
       [JNull]
     = (concat (report_rows Demo.E <$> report_ids), [], Ok tt))
  /\ (forall issues kept,
        filter_fresh issues = Ok kept -> kept <> [] ->
        write_csv_report Demo.E (JArr kept) [JNull]
        = ([],
           [WritingFailed (ValueError "dict contains fields not in fieldnames")],
           Raise (ValueError "dict contains fields not in fieldnames")))
  /\ write_csv_report Demo.E (JArr []) [JNull]
     = ([JNull], [NothingToWrite], Ok tt).
Proof.
  apply (write_csv_report_batch Demo.E [JNull]). reflexivity.
Defined.

(** The worked tenant: the batch writer on the rows of [r1], and on the kept
    issues of [r1]. *)
Example write_csv_report_demo :
  write_csv_report Demo.E (JArr Demo.rows) [JNull] = (Demo.rows, [], Ok tt)
  /\ (write_csv_report Demo.E (JArr [attach demo_issue_a]) [JNull]).1.1 = [].
Proof. vm_compute. done. Qed.

(** * Further properties: the test script and the extractor *)

Section TestFacts.

Variable E : env.

(** The counting loop gets through only a list of records. *)
Lemma count_reports_ok cutoff_date fix_reports : forall filtered_count n,
  count_reports E cutoff_date fix_reports filtered_count = Ok n ->
  forallb is_record fix_reports = true.
Proof.
  induction fix_reports as [|report rest IH]; intros filtered_count n H; [done|].
  cbn [count_reports] in H. apply rbind_ok in H as (count & Hone & H).
  csimpl. rewrite (IH _ _ H), andb_true_r.
  by destruct report.
Qed.

(** Once the Lister has the listing and the cutoff, a list of records takes
    it to the end. *)
Lemma get_active_reports_returns self w :
  (truthy (default JNull (api E ActiveReports)) = false
   \/ exists body delta cutoff_date reports n,
        api E ActiveReports = Some (JObj body)
        /\ timedelta_days (days_of_data self) = Ok delta
        /\ datetime_sub (Datetime (utcnow E (clock_reads w)) (Some 0%Z)) delta
           = Ok cutoff_date
        /\ py_iter (default (JArr []) (body !! "fixReport")) = Ok reports
        /\ forallb is_record reports = true
        /\ py_len (default (JArr []) (body !! "fixReport")) = Ok n) ->
  exists w' report_ids, get_active_reports E self w = (w', Ok report_ids).
Proof.
  intros [Hfalse|(body & delta & cutoff_date & reports & n & Hapi & Hdelta & Hcut
                  & Hiter & Hall & Hlen)].
  - unfold get_active_reports, bind at 1, _make_request. rewrite Hfalse.
    cbn [negb]. unfold bind, logging, ret. eauto.
  - destruct (decide (body = ∅)) as [->|Hne].
    { unfold get_active_reports, bind at 1, _make_request. rewrite Hapi.
      change (default JNull (Some (JObj ∅))) with (JObj ∅).
      cbn [truthy]. rewrite bool_decide_eq_true_2 by done.
      cbn [negb]. unfold bind, logging, ret. eauto. }
    rewrite (get_active_reports_unfold E self w body _ delta cutoff_date)
      by done.
    unfold bind at 1, lift. rewrite Hiter.
    assert (Hoff : utcoffset cutoff_date = Some 0%Z).
    { unfold datetime_sub in Hcut. by case_match; simplify_eq. }
    destruct (consider_reports_run E cutoff_date 0%Z reports Hoff
                (records_are_objects _ Hall) []
                (State (log w) (csv w) (requests w ++ [ActiveReports])
                   (S (clock_reads w)) (appends w) (total_irrelevant_issues w)))
      as (w' & Hrun & _).
    erewrite bind_ok by exact Hrun. unfold bind, lift, ret. rewrite Hlen. eauto.
Qed.

Lemma test_configuration_parsed file :
  test_configuration file = true ->
  exists config token days,
    file = Parsed (JObj config)
    /\ config !! "mobb_api_token" = Some token
    /\ truthy token = true
    /\ equals_str token PLACEHOLDER_TOKEN = false
    /\ sliceable token = true
    /\ (config !! "tenant" = Some (JStr "api")
        \/ config !! "tenant" = Some (JStr "api-st-finacct"))
    /\ as_int (default (JNum 7) (config !! "daysOfData")) = Some days
    /\ (1 <= days)%Z.
Proof.
  unfold test_configuration. intros H.
  destruct file as [| |[| | | | |config]]; try discriminate.
  cbn [py_get rbind] in H.
  destruct (config !! "mobb_api_token") as [token|] eqn:Htoken;
    [|discriminate].
  cbn [default from_option id] in H.
  destruct (truthy token) eqn:Htrue; [|discriminate].
  destruct (equals_str token PLACEHOLDER_TOKEN) eqn:Hplace; [discriminate|].
  cbn [negb orb] in H.
  destruct (equals_str (default JNull (config !! "tenant")) "api"
            || equals_str (default JNull (config !! "tenant")) "api-st-finacct")
    eqn:Htenant; [|discriminate].
  cbn [negb] in H.
  destruct (as_int (default (JNum 7) (config !! "daysOfData")))
    as [days|] eqn:Hdays; [|discriminate].
  destruct (days <? 1)%Z eqn:Hpos; [discriminate|].
  destruct (sliceable token) eqn:Hslice; [|discriminate].
  exists config, token, days. split_and!; try done; [|lia].
  apply orb_true_iff in Htenant.
  destruct (config !! "tenant") as [[| | |s| |]|]; csimpl in Htenant;
    try (by destruct Htenant).
  destruct Htenant as [Heq%String.eqb_eq|Heq%String.eqb_eq]; subst; eauto.
Qed.

End TestFacts.

(** X11.  A configuration [test_configuration] accepts is one the extractor
    can be built from: the credential is a non-empty string or list that is
    not the placeholder, the tenant is one of the two known ones, the window
    is an integer of at least one day; [_load_config] returns it and, when
    the output file can be created, the constructor returns the extractor of
    exactly these three values. *)
Theorem test_configuration_sound (E : env) (file : config_file) (w : state) :
  test_configuration file = true ->
  exists config token tenant window days,
    file = Parsed (JObj config)
    /\ config !! "mobb_api_token" = Some token
    /\ truthy token = true
    /\ sliceable token = true
    /\ config !! "tenant" = Some tenant
    /\ (tenant = JStr "api" \/ tenant = JStr "api-st-finacct")
    /\ window = default (JNum 7) (config !! "daysOfData")
    /\ as_int window = Some days
    /\ (1 <= days)%Z
    /\ _load_config file = Ok (JObj config)
    /\ (csv_create E = None ->
        exists w',
          __init__ E file w = (w', Ok (Extractor token tenant window))).
Proof.
  intros (config & token & days & -> & Htoken & Htrue & Hplace & Hslice
          & Htenant & Hdays & Hpos)%test_configuration_parsed.
  assert (exists tenant,
            config !! "tenant" = Some tenant
            /\ (tenant = JStr "api" \/ tenant = JStr "api-st-finacct"))
    as (tenant & Htenant' & Hwhich) by (destruct Htenant; eauto).
  assert (Hload : _load_config (Parsed (JObj config)) = Ok (JObj config)).
  { unfold _load_config. cbn [py_get rbind]. rewrite Htoken.
    cbn [default from_option id]. by rewrite Htrue, Hplace. }
  exists config, token, tenant, (default (JNum 7) (config !! "daysOfData")),
    days.
  split_and!; try done.
  intros Hcreate. unfold __init__, bind, lift, ret, _initialize_csv.
  rewrite Hload, Hcreate. cbn [py_get]. rewrite Htoken, Htenant'.
  cbn [default from_option id]. eauto.
Qed.

Lemma test_configuration_sound_witness :
  exists config token tenant window days,
    Parsed (JObj (<["mobb_api_token" := JStr "secret"]>
                  {["tenant" := JStr "api"]}))
    = Parsed (JObj config)
    /\ config !! "mobb_api_token" = Some token
    /\ truthy token = true
    /\ sliceable token = true
    /\ config !! "tenant" = Some tenant
    /\ (tenant = JStr "api" \/ tenant = JStr "api-st-finacct")
    /\ window = default (JNum 7) (config !! "daysOfData")
    /\ as_int window = Some days
    /\ (1 <= days)%Z
    /\ _load_config
         (Parsed (JObj (<["mobb_api_token" := JStr "secret"]>
                        {["tenant" := JStr "api"]})))
       = Ok (JObj config)
    /\ (csv_create Demo.E = None ->
        exists w',
          __init__ Demo.E
            (Parsed (JObj (<["mobb_api_token" := JStr "secret"]>
                           {["tenant" := JStr "api"]})))
            initial_state
          = (w', Ok (Extractor token tenant window))).
Proof.
  apply (test_configuration_sound Demo.E
           (Parsed (JObj (<["mobb_api_token" := JStr "secret"]>
                          {["tenant" := JStr "api"]})))
           initial_state).
  vm_compute. reflexivity.
Defined.

(** X12.  The configuration test is stricter than the constructor: a
    configuration without [tenant] fails [test_configuration], whatever else
    it holds, although the constructor accepts it as soon as the credential
    is there and the output file can be created, the tenant then being
    ["api"]. *)
Theorem test_configuration_requires_tenant (E : env)
    (config : gmap string json) (w : state) :
  config !! "tenant" = None ->
  credential_missing config = false ->
  csv_create E = None ->
  test_configuration (Parsed (JObj config)) = false
  /\ exists w' self,
       __init__ E (Parsed (JObj config)) w = (w', Ok self)
       /\ tenant self = JStr "api".
Proof.
  intros Hnone Hcred Hcreate. split.
  - unfold test_configuration. cbn [py_get rbind]. rewrite Hnone.
    cbn [default from_option id equals_str orb negb].
    by destruct (negb _ || _).
  - unfold credential_missing in Hcred.
    destruct (config !! "mobb_api_token") as [token|] eqn:Htoken;
      [|discriminate].
    unfold __init__, bind, lift, ret, _initialize_csv, _load_config.
    cbn [py_get rbind]. rewrite Htoken. cbn [default from_option id].
    rewrite Hcred, Hcreate. cbn [py_get]. rewrite Hnone.
    cbn [default from_option id]. eauto.
Qed.

Lemma test_configuration_requires_tenant_witness :
  test_configuration (Parsed (JObj {["mobb_api_token" := JStr "secret"]}))
  = false
  /\ exists w' self,
       __init__ Demo.E (Parsed (JObj {["mobb_api_token" := JStr "secret"]}))
         initial_state
       = (w', Ok self)
       /\ tenant self = JStr "api".
Proof.
  apply (test_configuration_requires_tenant Demo.E
           {["mobb_api_token" := JStr "secret"]} initial_state);
    reflexivity.
Defined.

(** X13.  When the connectivity test passes, the extractor run in the same
    surroundings is not fatal: the construction succeeds, the Lister returns
    and [main] ends with status 0.  The [main] of [test_config.py] then ends
    with status 0 exactly when the configuration test passes as well. *)
Theorem tests_pass_then_main_succeeds (E : env) (file : config_file)
    (w : state) :
  (test_api_connectivity E file w).2 = Ok true ->
  (exists self w1 w2 report_ids,
     __init__ E file w = (w1, Ok self)
     /\ get_active_reports E self w1 = (w2, Ok report_ids))
  /\ (main E file w).2 = 0%Z
  /\ ((TestConfig.main E file w).2 = 0%Z <-> test_configuration file = true).
Proof.
  intros Htest.
  assert (exists self w1 w2 report_ids,
            __init__ E file w = (w1, Ok self)
            /\ get_active_reports E self w1 = (w2, Ok report_ids))
    as (self & w1 & w2 & report_ids & Hinit & Hlist).
  { unfold test_api_connectivity, try_except, bind at 1 in Htest.
    destruct (__init__ E file w) as [w1 [self|e]] eqn:Hinit;
      [|discriminate].
    destruct (get_active_reports_returns E self w1) as (w2 & ids & Hlist);
      [|by exists self, w1, w2, ids].
    unfold bind at 1, _make_request in Htest.
    destruct (api E ActiveReports) as [response|] eqn:Hapi;
      [|discriminate].
    change (default JNull (Some response)) with response in *.
    destruct response as [| | | | |body]; try discriminate.
    right.
    unfold bind, lift, datetime_now_utc, ret in Htest.
    cbn [py_get clock_reads log csv requests appends
         total_irrelevant_issues] in Htest.
    destruct (py_len (default (JArr []) (body !! "fixReport")))
      as [n|] eqn:Hlen; [|discriminate].
    destruct (timedelta_days (days_of_data self)) as [delta|] eqn:Hdelta;
      [|discriminate].
    destruct (datetime_sub _ delta) as [cutoff_date|] eqn:Hcut;
      [|discriminate].
    destruct (py_iter (default (JArr []) (body !! "fixReport")))
      as [reports|] eqn:Hiter; [|discriminate].
    destruct (count_reports E cutoff_date reports 0) as [count|] eqn:Hcount;
      [|discriminate].
    exists body, delta, cutoff_date, reports, n.
    split_and!; try done. by eapply count_reports_ok. }
  split_and!.
  - by exists self, w1, w2, report_ids.
  - destruct (process_all_reports_after_lister E _ _ _ _ Hlist)
      as (w3 & n & Hrun).
    unfold main, bind at 1. rewrite Hinit.
    unfold run, try_except, bind at 1. by rewrite Hrun.
  - unfold TestConfig.main.
    destruct (test_configuration file); cbn [negb]; [|done].
    by destruct (test_api_connectivity E file w) as [w' [[]|]].
Qed.

Lemma tests_pass_then_main_succeeds_witness :
  (exists self w1 w2 report_ids,
     __init__ Demo.E
       (Parsed (JObj (<["mobb_api_token" := JStr "secret"]>
                      {["tenant" := JStr "api"]})))
       initial_state
     = (w1, Ok self)
     /\ get_active_reports Demo.E self w1 = (w2, Ok report_ids))
  /\ (main Demo.E
        (Parsed (JObj (<["mobb_api_token" := JStr "secret"]>
                       {["tenant" := JStr "api"]})))
        initial_state).2
     = 0%Z
  /\ ((TestConfig.main Demo.E
         (Parsed (JObj (<["mobb_api_token" := JStr "secret"]>
                        {["tenant" := JStr "api"]})))
         initial_state).2
      = 0%Z
      <-> test_configuration
            (Parsed (JObj (<["mobb_api_token" := JStr "secret"]>
                           {["tenant" := JStr "api"]})))
          = true).
Proof.
  apply (tests_pass_then_main_succeeds Demo.E
           (Parsed (JObj (<["mobb_api_token" := JStr "secret"]>
                          {["tenant" := JStr "api"]})))
           initial_state).
  vm_compute. reflexivity.
Defined.

(** The worked tenant passes both tests. *)
Example test_config_demo :
  (TestConfig.main Demo.E
     (Parsed (JObj (<["mobb_api_token" := JStr "secret"]>
                    {["tenant" := JStr "api"]})))
     initial_state).2
  = 0%Z.
Proof. vm_compute. reflexivity. Qed.
